(** * nsinit: launching a namespaced process (pkg/libcontainer/nsinit/exec.go)

    A shallow embedding of [execCommand] and its helpers.  The launch talks
    to the kernel and to sibling packages (os/exec, cgroups, network, term);
    every such call is answered by a [World], and the launch itself is a
    state-passing program that logs each call with the answer it received,
    updates a small file system and the child's stdin pipe, and returns Go's
    pair [(int, error)]. *)

From stdpp Require Import gmap strings list fin_maps pretty.
From Stdlib Require Import ZArith Lia.

Open Scope Z_scope.

(** ** Data *)

(** A Go [error] value; [option error] is Go's possibly-nil error. *)
Definition error := string.

(** A Go result pair [(T, error)]. *)
Inductive result (A : Type) : Type :=
| Ok (a : A)
| Err (e : error).
Arguments Ok {A} a.
Arguments Err {A} e.

(** libcontainer.Network: only the bridge is read here. *)
Record Network := mkNetwork { Bridge : string }.

(** libcontainer's cgroup configuration: exec.go tests it against nil and
    calls its [Apply] method, nothing else. *)
Inductive Cgroup := mkCgroup (name : string).

Record Container := mkContainer {
  Namespaces : list string;
  Cgroups : option Cgroup;
  ContainerNetwork : option Network
}.

(** exec.Cmd as built by [createCommand]. *)
Record Cmd := mkCmd {
  Path : string;
  Args : list string;
  Cloneflags : Z
}.

Definition Winsize := (Z * Z)%type.
Definition TermState := Z.

(** What the kernel's wait reports to [Cmd.Wait]: a failure of the wait
    itself, or the wait status word of the reaped child. *)
Inductive WaitOutcome :=
| WaitFailed (e : error)
| WaitReaped (ws : Z).

(** The error returned by [Cmd.Wait]: nil, an [*exec.ExitError], or any
    other error.  The process state is set in the first two cases. *)
Inductive WaitResult :=
| WaitNil (ws : Z)
| WaitExitError (ws : Z)
| WaitOther (e : error).

(** syscall.WaitStatus on Linux. *)
Definition Exited (ws : Z) : bool := Z.land ws 127 =? 0.

Definition ExitStatus (ws : Z) : Z :=
  if Exited ws then Z.land (Z.shiftr ws 8) 255 else -1.

Inductive Stream := Stdin | Stdout | Master (fd : Z).

(** The calls the launch makes, each with the answer that came back. *)
Inductive Event :=
| EvOpenFile (path : string) (flags perm : Z) (r : result Z)
| EvPtsname (master : Z) (r : result string)
| EvUnlockpt (master : Z) (r : option error)
| EvStdinPipe (r : option error)
| EvStart (cmd : Cmd) (r : result Z)
| EvWriteFile (path data : string) (perm : Z) (r : option error)
| EvRemove (path : string) (r : option error)
| EvKill (pid : Z)
| EvCgroupsApply (cg : Cgroup) (pid : Z) (r : option error)
| EvGenerateRandomName (prefix : string) (size : nat) (r : result string)
| EvCreateVethPair (name1 name2 : string) (r : option error)
| EvSetInterfaceMaster (name master : string) (r : option error)
| EvInterfaceUp (name : string) (r : option error)
| EvSetInterfaceInNamespacePid (name : string) (pid : Z) (r : option error)
| EvPipeWrite (data : string) (r : option error)
| EvPipeClose (r : option error)
| EvGoCopy (dst src : Stream)
| EvGetWinsize (r : result Winsize)
| EvSetWinsize (fd : Z) (ws : Winsize) (r : option error)
| EvSetRawTerminal (r : result TermState)
| EvRestoreTerminal (st : TermState)
| EvWait (r : WaitOutcome).

(** What ioutil.WriteFile meets: the file written in full; the open
    refused, the file left as it was; or the write broken off after the
    file was created or truncated, with [n] bytes of the data in it. *)
Inductive WriteAnswer :=
| WriteDone
| OpenRefused (e : error)
| WriteBroken (e : error) (n : nat).

(** The collaborators.  A field is the answer of one external call as a
    function of the arguments the launch passes. *)
Record World := mkWorld {
  os_OpenFile : string → Z → Z → result Z;
  system_Ptsname : Z → result string;
  system_Unlockpt : Z → option error;
  getNamespaceFlags : list string → Z;
  cmd_StdinPipe : Cmd → option error;
  cmd_Start : Cmd → result Z;
  ioutil_WriteFile : string → string → Z → WriteAnswer;
  os_Remove : string → option error;
  umask : Z;
  cgroups_Apply : Cgroup → Z → option error;
  rand_Read : nat → result string;
  network_CreateVethPair : string → string → option error;
  network_SetInterfaceMaster : string → string → option error;
  network_InterfaceUp : string → option error;
  network_SetInterfaceInNamespacePid : string → Z → option error;
  pipe_Write : string → option error;
  term_GetWinsize : result Winsize;
  term_SetWinsize : Z → Winsize → option error;
  term_SetRawTerminal : result TermState;
  process_Wait : Z → WaitOutcome
}.

(** A file: its bytes and its permission bits. *)
Record File := mkFile { f_data : string; f_perm : Z }.

(** The write end of the child's stdin. *)
Record Pipe := mkPipe { pipe_data : string; pipe_closed : bool }.

Record State := mkState {
  trace : list Event;
  fs : gmap string File;
  inPipe : option Pipe;
  draws : nat
}.

Definition init_state (fs0 : gmap string File) : State :=
  {| trace := []; fs := fs0; inPipe := None; draws := 0 |}.

(** ** The state monad of the launch *)

Definition M (A : Type) : Type := State → A * State.

Definition ret {A} (a : A) : M A := λ s, (a, s).

Definition bind {A B} (m : M A) (f : A → M B) : M B :=
  λ s, let (a, s') := m s in f a s'.

Declare Scope launch_scope.
Delimit Scope launch_scope with launch.
Notation "x <- m ;; k" := (bind m (λ x, k))
  (at level 100, m at next level, right associativity) : launch_scope.
Notation "m ;;; k" := (bind m (λ _, k))
  (at level 100, right associativity) : launch_scope.
Open Scope launch_scope.

Definition emit (e : Event) : M unit :=
  λ s, (tt, {| trace := trace s ++ [e]; fs := fs s;
               inPipe := inPipe s; draws := draws s |}).

(** An external call: log the answer and hand it to the caller. *)
Definition call {A} (ev : A → Event) (r : A) : M A :=
  emit (ev r) ;;; ret r.

(** Go's [defer]: [cleanup] runs when [body] returns, on every path. *)
Definition defer {A B} (cleanup : M B) (body : M A) : M A :=
  a <- body ;; cleanup ;;; ret a.

Definition set_fs (f : gmap string File → gmap string File) : M unit :=
  λ s, (tt, {| trace := trace s; fs := f (fs s);
               inPipe := inPipe s; draws := draws s |}).

Definition set_pipe (p : option Pipe) : M unit :=
  λ s, (tt, {| trace := trace s; fs := fs s; inPipe := p; draws := draws s |}).

Definition get_pipe : M (option Pipe) := λ s, (inPipe s, s).

Definition next_draw : M nat :=
  λ s, (draws s, {| trace := trace s; fs := fs s;
                    inPipe := inPipe s; draws := S (draws s) |}).

Definition get_fs : M (gmap string File) := λ s, (fs s, s).

(** fmt.Sprint on an int: decimal text. *)
Definition fmt_Sprint (n : Z) : string := pretty n.
Arguments fmt_Sprint : simpl never.

(** A Go octal literal of three digits, as in [0655]. *)
Definition octal (a b c : Z) : Z := a * 64 + b * 8 + c.

Definition O_RDWR : Z := 2.
Definition O_NOCTTY : Z := 256.
Definition O_CLOEXEC : Z := 524288.

(** Go's conversion [uintptr(n)] of an int, on a 64-bit platform. *)
Definition uintptr (n : Z) : Z := n mod 2 ^ 64.

(** The error ioutil.WriteFile returns. *)
Definition write_error (a : WriteAnswer) : option error :=
  match a with
  | WriteDone => None
  | OpenRefused e | WriteBroken e _ => Some e
  end.

(** The mode of the file that a creating open leaves at [path]. *)
Definition file_mode (m : gmap string File) (path : string) (perm mask : Z)
    : Z :=
  default (Z.ldiff perm mask) (f_perm <$> m !! path).

(** The file system after ioutil.WriteFile. *)
Definition written (a : WriteAnswer) (path data : string) (mode : Z)
    (m : gmap string File) : gmap string File :=
  match a with
  | WriteDone => <[path := mkFile data mode]> m
  | OpenRefused _ => m
  | WriteBroken _ n => <[path := mkFile (String.substring 0 n data) mode]> m
  end.

(** The file system after os.Remove answered [r]. *)
Definition unlinked (r : option error) (path : string)
    (m : gmap string File) : gmap string File :=
  match r with
  | None => delete path m
  | Some _ => m
  end.

Definition ENOENT : error := "no such file or directory".
Definition EBADF : error := "bad file descriptor".

(** ** The launch *)

Section Launch.

Variable w : World.

(** *** Library calls *)

(** ioutil.WriteFile opens the file with O_WRONLY|O_CREATE|O_TRUNC and
    writes the data.  A file that exists keeps its mode, a new one gets
    [perm] less the bits of the umask; a refused open changes nothing, a
    write broken off leaves the bytes that went through. *)
Definition WriteFile (path data : string) (perm : Z) : M (option error) :=
  m <- get_fs ;;
  let a := ioutil_WriteFile w path data perm in
  set_fs (written a path data (file_mode m path perm (umask w))) ;;;
  call (EvWriteFile path data perm) (write_error a).

(** os.Remove: a missing file is an error; otherwise the unlink is the
    kernel's to grant, and the file is gone when it is granted. *)
Definition Remove (path : string) : M (option error) :=
  m <- get_fs ;;
  match m !! path with
  | None => call (EvRemove path) (Some ENOENT)
  | Some _ =>
      r <- call (EvRemove path) (os_Remove w path) ;;
      set_fs (unlinked r path) ;;; ret r
  end.

(** Cmd.StdinPipe: the write end of a fresh pipe. *)
Definition StdinPipe (c : Cmd) : M (option error) :=
  r <- call EvStdinPipe (cmd_StdinPipe w c) ;;
  match r with
  | Some e => ret (Some e)
  | None => set_pipe (Some (mkPipe "" false)) ;;; ret None
  end.

Definition Start (c : Cmd) : M (result Z) :=
  call (EvStart c) (cmd_Start w c).

(** Process.Kill; exec.go drops its result. *)
Definition Kill (pid : Z) : M unit := emit (EvKill pid).

Definition Apply (cg : Cgroup) (pid : Z) : M (option error) :=
  call (EvCgroupsApply cg pid) (cgroups_Apply w cg pid).

(** fmt.Fprint on the pipe: one write of the whole text. *)
Definition Fprint (data : string) : M (option error) :=
  p <- get_pipe ;;
  match p with
  | Some (mkPipe d false) =>
      r <- call (EvPipeWrite data) (pipe_Write w data) ;;
      match r with
      | Some e => ret (Some e)
      | None => set_pipe (Some (mkPipe (d +:+ data) false)) ;;; ret None
      end
  | _ => call (EvPipeWrite data) (Some EBADF)
  end.

Definition Close : M (option error) :=
  p <- get_pipe ;;
  match p with
  | Some (mkPipe d false) =>
      set_pipe (Some (mkPipe d true)) ;;; call EvPipeClose None
  | _ => call EvPipeClose (Some EBADF)
  end.

(** Cmd.Wait of os/exec: the wait's own failure is returned as it is, a
    reaped child gives nil when its exit status is 0 and an ExitError
    otherwise. *)
Definition Wait (pid : Z) : M WaitResult :=
  o <- call EvWait (process_Wait w pid) ;;
  ret (match o with
       | WaitFailed e => WaitOther e
       | WaitReaped ws =>
           if ExitStatus ws =? 0 then WaitNil ws else WaitExitError ws
       end).

(** Modelled from the spec: utils.GenerateRandomName is not among the
    sources.  The spec describes the naming scheme as a fixed short prefix
    followed by a random suffix of fixed length; here each call takes the
    next draw of the random source and keeps its first [size] characters. *)
Definition GenerateRandomName (prefix : string) (size : nat) : M (result string) :=
  k <- next_draw ;;
  call (EvGenerateRandomName prefix size)
       (match rand_Read w k with
        | Err e => Err e
        | Ok s => Ok (prefix +:+ String.substring 0 size s)
        end).

(** *** exec.go *)

Definition createCommand (container : Container) (console : string)
    (args : list string) : Cmd :=
  {| Path := "nsinit";
     Args := ["-console"; console; "init"] ++ args;
     Cloneflags := uintptr (getNamespaceFlags w (Namespaces container)) |}.

Definition writePidFile (pid : Z) : M (option error) :=
  WriteFile ".nspid" (fmt_Sprint pid) (octal 6 5 5).

Definition deletePidFile : M (option error) := Remove ".nspid".

Definition createMasterAndConsole : M (result (Z * string)) :=
  r <- call (EvOpenFile "/dev/ptmx" (Z.lor (Z.lor O_RDWR O_NOCTTY) O_CLOEXEC) 0)
            (os_OpenFile w "/dev/ptmx" (Z.lor (Z.lor O_RDWR O_NOCTTY) O_CLOEXEC) 0) ;;
  match r with
  | Err e => ret (Err e)
  | Ok master =>
      r <- call (EvPtsname master) (system_Ptsname w master) ;;
      match r with
      | Err e => ret (Err e)
      | Ok console =>
          r <- call (EvUnlockpt master) (system_Unlockpt w master) ;;
          match r with
          | Some e => ret (Err e)
          | None => ret (Ok (master, console))
          end
      end
  end.

(** Named results [(name1, name2, err)]: a bare [return] hands back
    whatever they hold at that point. *)
Definition createVethPair : M (string * string * option error) :=
  r <- GenerateRandomName "dock" 4 ;;
  match r with
  | Err e => ret ("", "", Some e)
  | Ok name1 =>
      r <- GenerateRandomName "dock" 4 ;;
      match r with
      | Err e => ret (name1, "", Some e)
      | Ok name2 =>
          r <- call (EvCreateVethPair name1 name2)
                    (network_CreateVethPair w name1 name2) ;;
          match r with
          | Some e => ret (name1, name2, Some e)
          | None => ret (name1, name2, None)
          end
      end
  end.

Definition initializeContainerVeth (bridge : string) (nspid : Z)
    : M (result string) :=
  p <- createVethPair ;;
  let '(name1, name2, err) := p in
  match err with
  | Some e => ret (Err e)
  | None =>
      r <- call (EvSetInterfaceMaster name1 bridge)
                (network_SetInterfaceMaster w name1 bridge) ;;
      match r with
      | Some e => ret (Err e)
      | None =>
          r <- call (EvInterfaceUp name1) (network_InterfaceUp w name1) ;;
          match r with
          | Some e => ret (Err e)
          | None =>
              r <- call (EvSetInterfaceInNamespacePid name2 nspid)
                        (network_SetInterfaceInNamespacePid w name2 nspid) ;;
              match r with
              | Some e => ret (Err e)
              | None => ret (Ok name2)
              end
          end
      end
  end.

(** The result of fmt.Fprint is dropped. *)
Definition sendVethName (name : string) : M unit :=
  Fprint name ;;; ret tt.

Definition setupWindow (master : Z) : M (result TermState) :=
  r <- call EvGetWinsize (term_GetWinsize w) ;;
  match r with
  | Err e => ret (Err e)
  | Ok ws =>
      r <- call (EvSetWinsize master ws) (term_SetWinsize w master ws) ;;
      match r with
      | Some e => ret (Err e)
      | None => call EvSetRawTerminal (term_SetRawTerminal w)
      end
  end.

Definition RestoreTerminal (state : TermState) : M unit :=
  emit (EvRestoreTerminal state).

Definition execCommand (container : Container) (args : list string)
    : M (Z * option error) :=
  r <- createMasterAndConsole ;;
  match r with
  | Err e => ret (-1, Some e)
  | Ok (master, console) =>
  let command := createCommand container console args in
  r <- StdinPipe command ;;
  match r with
  | Some e => ret (-1, Some e)
  | None =>
  r <- Start command ;;
  match r with
  | Err e => ret (-1, Some e)
  | Ok pid =>
  r <- writePidFile pid ;;
  match r with
  | Some e => Kill pid ;;; ret (-1, Some e)
  | None =>
  defer deletePidFile (
    (* if container.Cgroups != nil *)
    r <- match Cgroups container with
         | Some cg => Apply cg pid
         | None => ret None
         end ;;
    match r with
    | Some e => Kill pid ;;; ret (-1, Some e)
    | None =>
    (* if container.Network != nil *)
    r <- match ContainerNetwork container with
         | Some net =>
             r <- initializeContainerVeth (Bridge net) pid ;;
             match r with
             | Err e => ret (Some e)
             | Ok vethPair => sendVethName vethPair ;;; ret None
             end
         | None => ret None
         end ;;
    match r with
    | Some e => ret (-1, Some e)
    | None =>
    Close ;;;
    emit (EvGoCopy Stdout (Master master)) ;;;
    emit (EvGoCopy (Master master) Stdin) ;;;
    r <- setupWindow master ;;
    match r with
    | Err e => Kill pid ;;; ret (-1, Some e)
    | Ok state =>
    defer (RestoreTerminal state) (
      r <- Wait pid ;;
      match r with
      | WaitOther e => ret (-1, Some e)
      | WaitNil ws | WaitExitError ws => ret (ExitStatus ws, None)
      end)
    end end end)
  end end end end.

End Launch.

(** Running the launch from a file system [fs0]. *)
Definition launch (w : World) (c : Container) (args : list string)
    (fs0 : gmap string File) : (Z * option error) * State :=
  execCommand w c args (init_state fs0).


Definition launch_result w c args fs0 : Z * option error :=
  fst (launch w c args fs0).

Definition launch_trace w c args fs0 : list Event :=
  trace (snd (launch w c args fs0)).

Definition launch_fs w c args fs0 : gmap string File :=
  fs (snd (launch w c args fs0)).

Definition launch_pipe w c args fs0 : option Pipe :=
  inPipe (snd (launch w c args fs0)).

(** ** Order in a trace *)

Section Order.

Variables P Q : Event → bool.

(** Every [Q] call comes after some [P] call. *)
Fixpoint preceded (seen : bool) (tr : list Event) : bool :=
  match tr with
  | [] => true
  | ev :: tr' =>
      (if Q ev then seen else true) && preceded (seen || P ev) tr'
  end.

(** No [Q] call comes after a [P] call. *)
Fixpoint quiet_after (seen : bool) (tr : list Event) : bool :=
  match tr with
  | [] => true
  | ev :: tr' =>
      (if Q ev then negb seen else true) && quiet_after (seen || P ev) tr'
  end.

(** Every [P] call is followed at once by a [Q] call. *)
Fixpoint followed (tr : list Event) : bool :=
  match tr with
  | [] => true
  | ev :: tr' =>
      (if P ev then match tr' with ev' :: _ => Q ev' | [] => false end
       else true) && followed tr'
  end.

End Order.

(** ** Worlds *)

(** [w] with another answer to the write on the child's stdin. *)
Definition with_pipe_Write (f : string → option error) (w : World) : World :=
  {| os_OpenFile := os_OpenFile w;
     system_Ptsname := system_Ptsname w;
     system_Unlockpt := system_Unlockpt w;
     getNamespaceFlags := getNamespaceFlags w;
     cmd_StdinPipe := cmd_StdinPipe w;
     cmd_Start := cmd_Start w;
     ioutil_WriteFile := ioutil_WriteFile w;
     os_Remove := os_Remove w;
     umask := umask w;
     cgroups_Apply := cgroups_Apply w;
     rand_Read := rand_Read w;
     network_CreateVethPair := network_CreateVethPair w;
     network_SetInterfaceMaster := network_SetInterfaceMaster w;
     network_InterfaceUp := network_InterfaceUp w;
     network_SetInterfaceInNamespacePid := network_SetInterfaceInNamespacePid w;
     pipe_Write := f;
     term_GetWinsize := term_GetWinsize w;
     term_SetWinsize := term_SetWinsize w;
     term_SetRawTerminal := term_SetRawTerminal w;
     process_Wait := process_Wait w |}.

(** [w] with another answer to ioutil.WriteFile. *)
Definition with_WriteFile (f : string → string → Z → WriteAnswer) (w : World) : World :=
  {| os_OpenFile := os_OpenFile w;
     system_Ptsname := system_Ptsname w;
     system_Unlockpt := system_Unlockpt w;
     getNamespaceFlags := getNamespaceFlags w;
     cmd_StdinPipe := cmd_StdinPipe w;
     cmd_Start := cmd_Start w;
     ioutil_WriteFile := f;
     os_Remove := os_Remove w;
     umask := umask w;
     cgroups_Apply := cgroups_Apply w;
     rand_Read := rand_Read w;
     network_CreateVethPair := network_CreateVethPair w;
     network_SetInterfaceMaster := network_SetInterfaceMaster w;
     network_InterfaceUp := network_InterfaceUp w;
     network_SetInterfaceInNamespacePid := network_SetInterfaceInNamespacePid w;
     pipe_Write := pipe_Write w;
     term_GetWinsize := term_GetWinsize w;
     term_SetWinsize := term_SetWinsize w;
     term_SetRawTerminal := term_SetRawTerminal w;
     process_Wait := process_Wait w |}.

(** [w] with another answer to the cgroup's Apply. *)
Definition with_cgroups_Apply (f : Cgroup → Z → option error) (w : World) : World :=
  {| os_OpenFile := os_OpenFile w;
     system_Ptsname := system_Ptsname w;
     system_Unlockpt := system_Unlockpt w;
     getNamespaceFlags := getNamespaceFlags w;
     cmd_StdinPipe := cmd_StdinPipe w;
     cmd_Start := cmd_Start w;
     ioutil_WriteFile := ioutil_WriteFile w;
     os_Remove := os_Remove w;
     umask := umask w;
     cgroups_Apply := f;
     rand_Read := rand_Read w;
     network_CreateVethPair := network_CreateVethPair w;
     network_SetInterfaceMaster := network_SetInterfaceMaster w;
     network_InterfaceUp := network_InterfaceUp w;
     network_SetInterfaceInNamespacePid := network_SetInterfaceInNamespacePid w;
     pipe_Write := pipe_Write w;
     term_GetWinsize := term_GetWinsize w;
     term_SetWinsize := term_SetWinsize w;
     term_SetRawTerminal := term_SetRawTerminal w;
     process_Wait := process_Wait w |}.

(** [w] with another random source. *)
Definition with_rand_Read (f : nat → result string) (w : World) : World :=
  {| os_OpenFile := os_OpenFile w;
     system_Ptsname := system_Ptsname w;
     system_Unlockpt := system_Unlockpt w;
     getNamespaceFlags := getNamespaceFlags w;
     cmd_StdinPipe := cmd_StdinPipe w;
     cmd_Start := cmd_Start w;
     ioutil_WriteFile := ioutil_WriteFile w;
     os_Remove := os_Remove w;
     umask := umask w;
     cgroups_Apply := cgroups_Apply w;
     rand_Read := f;
     network_CreateVethPair := network_CreateVethPair w;
     network_SetInterfaceMaster := network_SetInterfaceMaster w;
     network_InterfaceUp := network_InterfaceUp w;
     network_SetInterfaceInNamespacePid := network_SetInterfaceInNamespacePid w;
     pipe_Write := pipe_Write w;
     term_GetWinsize := term_GetWinsize w;
     term_SetWinsize := term_SetWinsize w;
     term_SetRawTerminal := term_SetRawTerminal w;
     process_Wait := process_Wait w |}.

(** [w] with another answer to network.CreateVethPair. *)
Definition with_CreateVethPair (f : string → string → option error) (w : World) : World :=
  {| os_OpenFile := os_OpenFile w;
     system_Ptsname := system_Ptsname w;
     system_Unlockpt := system_Unlockpt w;
     getNamespaceFlags := getNamespaceFlags w;
     cmd_StdinPipe := cmd_StdinPipe w;
     cmd_Start := cmd_Start w;
     ioutil_WriteFile := ioutil_WriteFile w;
     os_Remove := os_Remove w;
     umask := umask w;
     cgroups_Apply := cgroups_Apply w;
     rand_Read := rand_Read w;
     network_CreateVethPair := f;
     network_SetInterfaceMaster := network_SetInterfaceMaster w;
     network_InterfaceUp := network_InterfaceUp w;
     network_SetInterfaceInNamespacePid := network_SetInterfaceInNamespacePid w;
     pipe_Write := pipe_Write w;
     term_GetWinsize := term_GetWinsize w;
     term_SetWinsize := term_SetWinsize w;
     term_SetRawTerminal := term_SetRawTerminal w;
     process_Wait := process_Wait w |}.

(** [w] with another answer to network.SetInterfaceMaster. *)
Definition with_SetInterfaceMaster (f : string → string → option error) (w : World) : World :=
  {| os_OpenFile := os_OpenFile w;
     system_Ptsname := system_Ptsname w;
     system_Unlockpt := system_Unlockpt w;
     getNamespaceFlags := getNamespaceFlags w;
     cmd_StdinPipe := cmd_StdinPipe w;
     cmd_Start := cmd_Start w;
     ioutil_WriteFile := ioutil_WriteFile w;
     os_Remove := os_Remove w;
     umask := umask w;
     cgroups_Apply := cgroups_Apply w;
     rand_Read := rand_Read w;
     network_CreateVethPair := network_CreateVethPair w;
     network_SetInterfaceMaster := f;
     network_InterfaceUp := network_InterfaceUp w;
     network_SetInterfaceInNamespacePid := network_SetInterfaceInNamespacePid w;
     pipe_Write := pipe_Write w;
     term_GetWinsize := term_GetWinsize w;
     term_SetWinsize := term_SetWinsize w;
     term_SetRawTerminal := term_SetRawTerminal w;
     process_Wait := process_Wait w |}.

(** [w] with another outcome of the wait. *)
Definition with_process_Wait (f : Z → WaitOutcome) (w : World) : World :=
  {| os_OpenFile := os_OpenFile w;
     system_Ptsname := system_Ptsname w;
     system_Unlockpt := system_Unlockpt w;
     getNamespaceFlags := getNamespaceFlags w;
     cmd_StdinPipe := cmd_StdinPipe w;
     cmd_Start := cmd_Start w;
     ioutil_WriteFile := ioutil_WriteFile w;
     os_Remove := os_Remove w;
     umask := umask w;
     cgroups_Apply := cgroups_Apply w;
     rand_Read := rand_Read w;
     network_CreateVethPair := network_CreateVethPair w;
     network_SetInterfaceMaster := network_SetInterfaceMaster w;
     network_InterfaceUp := network_InterfaceUp w;
     network_SetInterfaceInNamespacePid := network_SetInterfaceInNamespacePid w;
     pipe_Write := pipe_Write w;
     term_GetWinsize := term_GetWinsize w;
     term_SetWinsize := term_SetWinsize w;
     term_SetRawTerminal := term_SetRawTerminal w;
     process_Wait := f |}.

(** [w] with another answer to os.Remove. *)
Definition with_Remove (f : string → option error) (w : World) : World :=
  {| os_OpenFile := os_OpenFile w;
     system_Ptsname := system_Ptsname w;
     system_Unlockpt := system_Unlockpt w;
     getNamespaceFlags := getNamespaceFlags w;
     cmd_StdinPipe := cmd_StdinPipe w;
     cmd_Start := cmd_Start w;
     ioutil_WriteFile := ioutil_WriteFile w;
     os_Remove := f;
     umask := umask w;
     cgroups_Apply := cgroups_Apply w;
     rand_Read := rand_Read w;
     network_CreateVethPair := network_CreateVethPair w;
     network_SetInterfaceMaster := network_SetInterfaceMaster w;
     network_InterfaceUp := network_InterfaceUp w;
     network_SetInterfaceInNamespacePid := network_SetInterfaceInNamespacePid w;
     pipe_Write := pipe_Write w;
     term_GetWinsize := term_GetWinsize w;
     term_SetWinsize := term_SetWinsize w;
     term_SetRawTerminal := term_SetRawTerminal w;
     process_Wait := process_Wait w |}.

(** [w] with another umask of the launching process. *)
Definition with_umask (f : Z) (w : World) : World :=
  {| os_OpenFile := os_OpenFile w;
     system_Ptsname := system_Ptsname w;
     system_Unlockpt := system_Unlockpt w;
     getNamespaceFlags := getNamespaceFlags w;
     cmd_StdinPipe := cmd_StdinPipe w;
     cmd_Start := cmd_Start w;
     ioutil_WriteFile := ioutil_WriteFile w;
     os_Remove := os_Remove w;
     umask := f;
     cgroups_Apply := cgroups_Apply w;
     rand_Read := rand_Read w;
     network_CreateVethPair := network_CreateVethPair w;
     network_SetInterfaceMaster := network_SetInterfaceMaster w;
     network_InterfaceUp := network_InterfaceUp w;
     network_SetInterfaceInNamespacePid := network_SetInterfaceInNamespacePid w;
     pipe_Write := pipe_Write w;
     term_GetWinsize := term_GetWinsize w;
     term_SetWinsize := term_SetWinsize w;
     term_SetRawTerminal := term_SetRawTerminal w;
     process_Wait := process_Wait w |}.

(** Every collaborator succeeds; the child gets pid 4242 and exits with
    status 17. *)
Definition all_ok : World :=
  {| os_OpenFile := λ _ _ _, Ok 3;
     system_Ptsname := λ _, Ok "/dev/pts/4";
     system_Unlockpt := λ _, None;
     getNamespaceFlags := λ _, 0;
     cmd_StdinPipe := λ _, None;
     cmd_Start := λ _, Ok 4242;
     ioutil_WriteFile := λ _ _ _, WriteDone;
     os_Remove := λ _, None;
     umask := octal 0 2 2;
     cgroups_Apply := λ _ _, None;
     rand_Read := λ k, Ok (if (k =? 0)%nat then "a1b2c3" else "d4e5f6");
     network_CreateVethPair := λ _ _, None;
     network_SetInterfaceMaster := λ _ _, None;
     network_InterfaceUp := λ _, None;
     network_SetInterfaceInNamespacePid := λ _ _, None;
     pipe_Write := λ _, None;
     term_GetWinsize := Ok (24, 80);
     term_SetWinsize := λ _ _, None;
     term_SetRawTerminal := Ok 7;
     process_Wait := λ _, WaitReaped (Z.shiftl 17 8) |}.

(** A container with resource limits and a network. *)
Definition demo : Container :=
  {| Namespaces := ["NEWNS"; "NEWNET"; "NEWPID"];
     Cgroups := Some (mkCgroup "demo");
     ContainerNetwork := Some (mkNetwork "docker0") |}.

Definition EPIPE : error := "broken pipe".
Definition EEXIST : error := "file exists".
Definition ENODEV : error := "no such device".
Definition EACCES : error := "permission denied".

(** ** Classes of calls *)

(** The calls of the network package. *)
Definition is_network_op (ev : Event) : bool :=
  match ev with
  | EvCreateVethPair _ _ _ | EvSetInterfaceMaster _ _ _
  | EvInterfaceUp _ _ | EvSetInterfaceInNamespacePid _ _ _ => true
  | _ => false
  end.

(** A resource-limit application that went through. *)
Definition is_applied (ev : Event) : bool :=
  match ev with
  | EvCgroupsApply _ _ None => true
  | _ => false
  end.

Definition is_write (ev : Event) : bool :=
  match ev with EvPipeWrite _ _ => true | _ => false end.

Definition is_close (ev : Event) : bool :=
  match ev with EvPipeClose _ => true | _ => false end.

Definition on_pipe (ev : Event) : bool := is_write ev || is_close ev.

(** The error of a call of the network package that failed. *)
Definition failed_network_op (ev : Event) : option error :=
  match ev with
  | EvCreateVethPair _ _ r | EvSetInterfaceMaster _ _ r
  | EvInterfaceUp _ r | EvSetInterfaceInNamespacePid _ _ r => r
  | _ => None
  end.

Definition cgroups_fail : World :=
  with_cgroups_Apply (λ _ _, Some EACCES) all_ok.

Definition master_fail : World :=
  with_SetInterfaceMaster (λ _ _, Some ENODEV) all_ok.

(** The write on the channel is refused. *)
Definition pipe_fail : World := with_pipe_Write (λ _, Some EPIPE) all_ok.

(** Creation of the pair answers that a name is taken. *)
Definition name_taken : World :=
  with_CreateVethPair (λ _ _, Some EEXIST) all_ok.

(** The random source hands out the same characters twice. *)
Definition same_draws : World := with_rand_Read (λ _, Ok "a1b2c3") all_ok.

(** The marker cannot be written. *)
Definition marker_fail : World :=
  with_WriteFile (λ _ _ _, OpenRefused EACCES) all_ok.

(** The child is killed by signal 9. *)
Definition signalled : World :=
  with_process_Wait (λ _, WaitReaped 9) all_ok.

Definition ECHILD : error := "no child processes".

(** The wait itself fails. *)
Definition wait_fail : World :=
  with_process_Wait (λ _, WaitFailed ECHILD) all_ok.

(** ** More classes of calls *)

(** The error of a failed setup call, one whose error exec.go tests. *)
Definition setup_error (ev : Event) : option error :=
  match ev with
  | EvOpenFile _ _ _ (Err e) | EvPtsname _ (Err e) | EvStart _ (Err e)
  | EvGenerateRandomName _ _ (Err e) | EvGetWinsize (Err e)
  | EvSetRawTerminal (Err e) => Some e
  | EvUnlockpt _ r | EvStdinPipe r | EvWriteFile _ _ _ r
  | EvCgroupsApply _ _ r | EvCreateVethPair _ _ r
  | EvSetInterfaceMaster _ _ r | EvInterfaceUp _ r
  | EvSetInterfaceInNamespacePid _ _ r | EvSetWinsize _ _ r => r
  | _ => None
  end.

(** The error of a failed call of [setupWindow]. *)
Definition terminal_error (ev : Event) : option error :=
  match ev with
  | EvGetWinsize (Err e) | EvSetRawTerminal (Err e) => Some e
  | EvSetWinsize _ _ r => r
  | _ => None
  end.

Definition count_calls (P : Event → bool) (tr : list Event) : nat :=
  length (List.filter P tr).

(** A call of the log with the answer to a channel write blanked. *)
Definition mask_write (ev : Event) : Event :=
  match ev with
  | EvPipeWrite d _ => EvPipeWrite d None
  | _ => ev
  end.

Definition is_closed_ok (ev : Event) : bool :=
  match ev with EvPipeClose None => true | _ => false end.

(** The steps of the bootstrap: the calls of the network package and the
    write of the name on the channel. *)
Definition is_bootstrap_step (ev : Event) : bool :=
  is_network_op ev || is_write ev.

Definition bootstrap_step_error (ev : Event) : option error :=
  match ev with
  | EvPipeWrite _ r => r
  | _ => failed_network_op ev
  end.

(** The steps a bootstrap towards [bridge] and [pid] can log, with the
    error it stops on: each step but the last ends the sequence when it
    fails, and the last one is the write of the second name. *)
Inductive bootstrap_run (bridge : string) (pid : Z)
    : list Event → option error → Prop :=
| run_create_failed n1 n2 e :
    bootstrap_run bridge pid [EvCreateVethPair n1 n2 (Some e)] (Some e)
| run_master_failed n1 n2 e :
    bootstrap_run bridge pid
      [EvCreateVethPair n1 n2 None; EvSetInterfaceMaster n1 bridge (Some e)]
      (Some e)
| run_up_failed n1 n2 e :
    bootstrap_run bridge pid
      [EvCreateVethPair n1 n2 None; EvSetInterfaceMaster n1 bridge None;
       EvInterfaceUp n1 (Some e)]
      (Some e)
| run_migrate_failed n1 n2 e :
    bootstrap_run bridge pid
      [EvCreateVethPair n1 n2 None; EvSetInterfaceMaster n1 bridge None;
       EvInterfaceUp n1 None;
       EvSetInterfaceInNamespacePid n2 pid (Some e)]
      (Some e)
| run_sent n1 n2 wr :
    bootstrap_run bridge pid
      [EvCreateVethPair n1 n2 None; EvSetInterfaceMaster n1 bridge None;
       EvInterfaceUp n1 None; EvSetInterfaceInNamespacePid n2 pid None;
       EvPipeWrite n2 wr]
      None.

Definition is_generate (ev : Event) : bool :=
  match ev with EvGenerateRandomName _ _ _ => true | _ => false end.

Definition is_create (ev : Event) : bool :=
  match ev with EvCreateVethPair _ _ _ => true | _ => false end.

(** ** The claims that the code departs from, as the spec words them *)


(** The last part of C8 as the spec words it: any step that fails makes
    the launch stop with that step's error. *)
Definition any_step_failure_aborts w c args fs0 : Prop :=
  ∀ ev e,
    ev ∈ launch_trace w c args fs0 → bootstrap_step_error ev = Some e →
    launch_result w c args fs0 = (-1, Some e).

(** C6 as the spec words it: after a creation refused because a name
    exists, names are drawn again until a creation goes through, and the
    launch does not return that refusal. *)
Definition collision_retried w c args fs0 : Prop :=
  ∀ n1 n2,
    EvCreateVethPair n1 n2 (Some EEXIST) ∈ launch_trace w c args fs0 →
    (∃ m1 m2, EvCreateVethPair m1 m2 None ∈ launch_trace w c args fs0)
    ∧ snd (launch_result w c args fs0) ≠ Some EEXIST.

(** ** Further classes of calls *)

Definition is_start_ok (ev : Event) : bool :=
  match ev with EvStart _ (Ok _) => true | _ => false end.

Definition is_start (ev : Event) : bool :=
  match ev with EvStart _ _ => true | _ => false end.

Definition is_kill (ev : Event) : bool :=
  match ev with EvKill _ => true | _ => false end.

Definition is_remove (ev : Event) : bool :=
  match ev with EvRemove _ _ => true | _ => false end.

Definition is_apply (ev : Event) : bool :=
  match ev with EvCgroupsApply _ _ _ => true | _ => false end.

Definition is_copy (ev : Event) : bool :=
  match ev with EvGoCopy _ _ => true | _ => false end.

Definition is_restore (ev : Event) : bool :=
  match ev with EvRestoreTerminal _ => true | _ => false end.

Definition is_wait (ev : Event) : bool :=
  match ev with EvWait _ => true | _ => false end.


Definition is_setup_failure (ev : Event) : bool :=
  match setup_error ev with Some _ => true | None => false end.

(** Neither the kill of the child nor the removal of the marker. *)
Definition is_not_cleanup (ev : Event) : bool :=
  negb (is_kill ev || is_remove ev).

(** The first [P] call of a trace, with what comes before and after. *)
Fixpoint split_first (P : Event → bool) (tr : list Event)
    : option (list Event * Event * list Event) :=
  match tr with
  | [] => None
  | x :: tr' =>
      if P x then Some ([], x, tr')
      else match split_first P tr' with
           | Some (pre, ev, post) => Some (x :: pre, ev, post)
           | None => None
           end
  end.

(** A world without a terminal on stdin. *)
Definition ENOTTY : error := "inappropriate ioctl for device".

Definition no_tty : World :=
  {| os_OpenFile := os_OpenFile all_ok;
     system_Ptsname := system_Ptsname all_ok;
     system_Unlockpt := system_Unlockpt all_ok;
     getNamespaceFlags := getNamespaceFlags all_ok;
     cmd_StdinPipe := cmd_StdinPipe all_ok;
     cmd_Start := cmd_Start all_ok;
     ioutil_WriteFile := ioutil_WriteFile all_ok;
     os_Remove := os_Remove all_ok;
     umask := umask all_ok;
     cgroups_Apply := cgroups_Apply all_ok;
     rand_Read := rand_Read all_ok;
     network_CreateVethPair := network_CreateVethPair all_ok;
     network_SetInterfaceMaster := network_SetInterfaceMaster all_ok;
     network_InterfaceUp := network_InterfaceUp all_ok;
     network_SetInterfaceInNamespacePid :=
       network_SetInterfaceInNamespacePid all_ok;
     pipe_Write := pipe_Write all_ok;
     term_GetWinsize := Err ENOTTY;
     term_SetWinsize := term_SetWinsize all_ok;
     term_SetRawTerminal := term_SetRawTerminal all_ok;
     process_Wait := process_Wait all_ok |}.


(** The random source is exhausted. *)
Definition EIO : error := "input/output error".

Definition no_entropy : World := with_rand_Read (λ _, Err EIO) all_ok.

(** A container with neither resource limits nor a network. *)
Definition bare : Container :=
  {| Namespaces := ["NEWNS"]; Cgroups := None; ContainerNetwork := None |}.

(** ** Reading decimal text *)

(** The value of a decimal digit. *)
Definition digit_of (c : Ascii.ascii) : option N :=
  let n := Ascii.N_of_ascii c in
  if ((48 <=? n) && (n <=? 57))%N then Some (n - 48)%N else None.

(** The number that [acc] and the digits of [s] spell. *)
Fixpoint parse_digits (acc : N) (s : string) : option N :=
  match s with
  | EmptyString => Some acc
  | String c s' =>
      match digit_of c with
      | Some d => parse_digits (acc * 10 + d) s'
      | None => None
      end
  end.

(** A non-empty string of decimal digits. *)
Definition parse_N (s : string) : option N :=
  match s with
  | EmptyString => None
  | String _ _ => parse_digits 0 s
  end.

(** Decimal text with an optional minus sign (character 45). *)
Definition parse_int (s : string) : option Z :=
  match parse_N s with
  | Some n => Some (Z.of_N n)
  | None =>
      match s with
      | String c s' =>
          if (Ascii.N_of_ascii c =? 45)%N then
            match parse_N s' with
            | Some n => Some (- Z.of_N n)
            | None => None
            end
          else None
      | EmptyString => None
      end
  end.

(** ** Worlds and classes for the marker and the bootstrap *)

Definition EROFS : error := "read-only file system".

(** The unlink of the marker is refused. *)
Definition unlink_refused : World := with_Remove (λ _, Some EROFS) all_ok.

(** The resource limits are refused, and so is the unlink. *)
Definition limits_and_unlink_refused : World :=
  with_Remove (λ _, Some EROFS) cgroups_fail.

(** The launching process has umask 077. *)
Definition strict_umask : World := with_umask (octal 0 7 7) all_ok.

(** The namespace flags come out negative. *)
Definition negative_flags : World :=
  {| os_OpenFile := os_OpenFile all_ok;
     system_Ptsname := system_Ptsname all_ok;
     system_Unlockpt := system_Unlockpt all_ok;
     getNamespaceFlags := λ _, -1;
     cmd_StdinPipe := cmd_StdinPipe all_ok;
     cmd_Start := cmd_Start all_ok;
     ioutil_WriteFile := ioutil_WriteFile all_ok;
     os_Remove := os_Remove all_ok;
     umask := umask all_ok;
     cgroups_Apply := cgroups_Apply all_ok;
     rand_Read := rand_Read all_ok;
     network_CreateVethPair := network_CreateVethPair all_ok;
     network_SetInterfaceMaster := network_SetInterfaceMaster all_ok;
     network_InterfaceUp := network_InterfaceUp all_ok;
     network_SetInterfaceInNamespacePid := network_SetInterfaceInNamespacePid all_ok;
     pipe_Write := pipe_Write all_ok;
     term_GetWinsize := term_GetWinsize all_ok;
     term_SetWinsize := term_SetWinsize all_ok;
     term_SetRawTerminal := term_SetRawTerminal all_ok;
     process_Wait := process_Wait all_ok |}.

Definition is_terminal (ev : Event) : bool :=
  match ev with
  | EvGetWinsize _ | EvSetWinsize _ _ _ | EvSetRawTerminal _
  | EvRestoreTerminal _ => true
  | _ => false
  end.

Definition is_refused_apply (ev : Event) : bool :=
  match ev with EvCgroupsApply _ _ (Some _) => true | _ => false end.

Definition is_failed_generate (ev : Event) : bool :=
  match ev with EvGenerateRandomName _ _ (Err _) => true | _ => false end.

(** The last part of C5 as the spec words it: after a refused application
    of the limits no marker is left. *)
Definition limits_failure_leaves_no_marker w c args fs0 : Prop :=
  ∀ cg pid e,
    EvCgroupsApply cg pid (Some e) ∈ launch_trace w c args fs0 →
    launch_fs w c args fs0 !! ".nspid" = None.

(** Two parts of C7 as the spec words them: the marker that was written
    is gone when the launch returns, and the file that the write leaves
    can be read by group and others. *)
Definition marker_always_removed w c args fs0 : Prop :=
  ∀ data perm,
    EvWriteFile ".nspid" data perm None ∈ launch_trace w c args fs0 →
    launch_fs w c args fs0 !! ".nspid" = None.

Definition marker_readable_by_all w pid fs0 : Prop :=
  ∀ f,
    fs (snd (writePidFile w pid (init_state fs0))) !! ".nspid" = Some f →
    Z.land (f_perm f) (octal 6 4 4) = octal 6 4 4.

(** ** Proof machinery *)

(** Unfold the launch down to the collaborators' answers. *)
Ltac unfold_launch :=
  cbv beta iota zeta delta
    [launch_result launch_trace launch_fs launch_pipe launch init_state
     execCommand createMasterAndConsole createCommand StdinPipe Start
     writePidFile deletePidFile WriteFile Remove Kill Apply Fprint Close Wait
     GenerateRandomName createVethPair initializeContainerVeth sendVethName
     setupWindow RestoreTerminal defer call emit ret bind set_fs set_pipe
     get_pipe get_fs next_draw trace fs inPipe draws fst snd app
     write_error written unlinked].

(** One answer at a time: a lookup of the marker just written is known,
    any other answer is a case split. *)
Ltac split_answer :=
  first
    [ rewrite lookup_insert_eq
    | match goal with
      | |- context [match ?x with _ => _ end] =>
          lazymatch x with
          | context [match _ with _ => _ end] => fail
          | _ => destruct x eqn:?
          end
      end ].

Ltac launch_cases := unfold_launch; repeat (split_answer; unfold_launch).

(** Membership in a trace that is written out. *)
Ltac inv_elem H :=
  repeat (apply elem_of_cons in H as [H | H];
          [first [discriminate H | simplify_eq H; intros; subst] |]);
  try (apply elem_of_nil in H; destruct H).

Ltac elem_here :=
  repeat first [ apply elem_of_cons; left; reflexivity
               | apply elem_of_cons; right ].

Ltac unfold_world :=
  cbv beta iota delta
    [with_pipe_Write os_OpenFile system_Ptsname system_Unlockpt
     getNamespaceFlags cmd_StdinPipe cmd_Start ioutil_WriteFile os_Remove
     umask cgroups_Apply
     rand_Read network_CreateVethPair network_SetInterfaceMaster
     network_InterfaceUp network_SetInterfaceInNamespacePid pipe_Write
     term_GetWinsize term_SetWinsize term_SetRawTerminal process_Wait].

(** ** Order in a trace: what the checks give *)

Section OrderFacts.

Variables P Q : Event → bool.

Lemma preceded_seen tr : preceded P Q false tr = true → preceded P Q true tr = true.
Proof.
  enough (H : ∀ b, preceded P Q b tr = true → preceded P Q true tr = true) by apply H.
  induction tr as [|ev tr IH]; intros b; simpl; [done|].
  intros [H1 H2]%andb_prop. apply andb_true_intro; split.
  - by destruct (Q ev).
  - by apply (IH (b || P ev)).
Qed.

Lemma preceded_split tr pre ev post :
  preceded P Q false tr = true → tr = pre ++ ev :: post → Q ev = true →
  ∃ ev', ev' ∈ pre ∧ P ev' = true.
Proof.
  revert tr. induction pre as [|x pre IH]; intros tr Hc -> Hq; simpl in Hc.
  - rewrite Hq in Hc. discriminate.
  - apply andb_prop in Hc as [_ Hc]. destruct (P x) eqn:Hp.
    + exists x. split; [apply elem_of_cons; by left | done].
    + destruct (IH _ Hc eq_refl Hq) as (ev' & Hin & Hev').
      exists ev'. split; [apply elem_of_cons; by right | done].
Qed.

Lemma quiet_after_seen tr ev :
  quiet_after P Q true tr = true → ev ∈ tr → Q ev = false.
Proof.
  induction tr as [|x tr IH]; simpl; intros Hc Hin.
  - by apply elem_of_nil in Hin.
  - apply andb_prop in Hc as [Hx Hc].
    apply elem_of_cons in Hin as [-> | Hin]; [|by apply IH].
    by destruct (Q x).
Qed.

Lemma quiet_after_split tr pre ev post x :
  quiet_after P Q false tr = true → tr = pre ++ ev :: post → P ev = true →
  x ∈ post → Q x = false.
Proof.
  enough (H : ∀ b, quiet_after P Q b tr = true → tr = pre ++ ev :: post →
                   P ev = true → x ∈ post → Q x = false) by apply H.
  revert tr. induction pre as [|y pre IH]; intros tr b Hc -> Hp Hin;
    simpl in Hc; apply andb_prop in Hc as [_ Hc].
  - rewrite Hp, orb_true_r in Hc. by eapply quiet_after_seen.
  - by eapply (IH _ (b || P y)).
Qed.

Lemma followed_split tr pre ev post :
  followed P Q tr = true → tr = pre ++ ev :: post → P ev = true →
  ∃ ev' post', post = ev' :: post' ∧ Q ev' = true.
Proof.
  revert tr. induction pre as [|y pre IH]; intros tr Hc -> Hp;
    simpl in Hc; apply andb_prop in Hc as [Hx Hc].
  - rewrite Hp in Hx. destruct post as [|ev' post']; [discriminate|].
    by exists ev', post'.
  - by eapply IH.
Qed.

End OrderFacts.

(** * Properties *)

(** ** Sanity of the embedding *)

Example launch_all_ok :
  launch_result all_ok demo ["sh"] ∅ = (17, None)
  ∧ launch_pipe all_ok demo ["sh"] ∅ = Some (mkPipe "dockd4e5" true)
  ∧ launch_fs all_ok demo ["sh"] ∅ !! ".nspid" = None.
Proof. by vm_compute. Qed.

Example launch_marker_fail :
  launch_result marker_fail demo ["sh"] ∅ = (-1, Some EACCES)
  ∧ last (launch_trace marker_fail demo ["sh"] ∅) = Some (EvKill 4242).
Proof. by vm_compute. Qed.

Example launch_wait_fail :
  launch_result wait_fail demo ["sh"] ∅ = (-1, Some ECHILD)
  ∧ launch_fs wait_fail demo ["sh"] ∅ !! ".nspid" = None.
Proof. by vm_compute. Qed.

(** A child ended by a signal: [Wait] gives an ExitError, which the launch
    lets through, and the exit status of a child that has not exited is -1. *)
Example launch_signalled :
  launch_result signalled demo ["sh"] ∅ = (-1, None).
Proof. by vm_compute. Qed.

Example fmt_Sprint_4242 : fmt_Sprint 4242 = "4242".
Proof. reflexivity. Qed.

Lemma fmt_Sprint_inj a b : fmt_Sprint a = fmt_Sprint b → a = b.
Proof. unfold fmt_Sprint. apply pretty_Z_inj. Qed.

Example ExitStatus_17 : ExitStatus (Z.shiftl 17 8) = 17.
Proof. reflexivity. Qed.

(** A child killed by signal 9 has not exited. *)
Example ExitStatus_signalled : ExitStatus 9 = -1.
Proof. reflexivity. Qed.

Lemma ExitStatus_range ws :
  Exited ws = true → 0 ≤ ExitStatus ws ≤ 255.
Proof.
  unfold ExitStatus. intros ->.
  change 255 with (Z.ones 8). rewrite Z.land_ones by lia.
  change (2 ^ 8) with 256.
  pose proof (Z.mod_pos_bound (Z.shiftr ws 8) 256).
  change (Z.ones 8) with 255. lia.
Qed.

(** ** Exit status *)


Lemma all_ok_trace :
  launch_trace all_ok demo ["sh"] ∅ =
  [EvOpenFile "/dev/ptmx" 524546 0 (Ok 3);
   EvPtsname 3 (Ok "/dev/pts/4"); EvUnlockpt 3 None; EvStdinPipe None;
   EvStart (mkCmd "nsinit" ["-console"; "/dev/pts/4"; "init"; "sh"] 0)
     (Ok 4242);
   EvWriteFile ".nspid" "4242" 429 None;
   EvCgroupsApply (mkCgroup "demo") 4242 None;
   EvGenerateRandomName "dock" 4 (Ok "docka1b2");
   EvGenerateRandomName "dock" 4 (Ok "dockd4e5");
   EvCreateVethPair "docka1b2" "dockd4e5" None;
   EvSetInterfaceMaster "docka1b2" "docker0" None;
   EvInterfaceUp "docka1b2" None;
   EvSetInterfaceInNamespacePid "dockd4e5" 4242 None;
   EvPipeWrite "dockd4e5" None; EvPipeClose None;
   EvGoCopy Stdout (Master 3); EvGoCopy (Master 3) Stdin;
   EvGetWinsize (Ok (24, 80)); EvSetWinsize 3 (24, 80) None;
   EvSetRawTerminal (Ok 7); EvWait (WaitReaped 4352);
   EvRestoreTerminal 7; EvRemove ".nspid" None].
Proof. reflexivity. Qed.


(** ** Resource limits come first *)

Lemma launch_applied_is_child w c args fs0 ev :
  ev ∈ launch_trace w c args fs0 → is_applied ev = true →
  ∃ cg pid cmd, ev = EvCgroupsApply cg pid None ∧ Cgroups c = Some cg
    ∧ EvStart cmd (Ok pid) ∈ launch_trace w c args fs0.
Proof.
  launch_cases; intros Hin Hap; inv_elem Hin; try discriminate Hap;
    eexists _, _, _; (split; [reflexivity|]); (split; [reflexivity|]);
    elem_here.
Qed.

Lemma launch_apply_then_network w c args fs0 cg :
  Cgroups c = Some cg →
  preceded is_applied is_network_op false (launch_trace w c args fs0) = true.
Proof.
  launch_cases; intros Hcg; first [reflexivity | congruence].
Qed.

(** C2.  With resource limits configured, whenever the launch makes a call
    of the network package (veth creation, bridge attach, interface up,
    namespace migration), the limits have already been applied, with
    success, to the pid of the started child. *)
Theorem cgroups_before_network w c args fs0 cg net :
  Cgroups c = Some cg → ContainerNetwork c = Some net →
  ∀ pre ev post,
    launch_trace w c args fs0 = pre ++ ev :: post →
    is_network_op ev = true →
    ∃ pid cmd, EvCgroupsApply cg pid None ∈ pre
      ∧ EvStart cmd (Ok pid) ∈ launch_trace w c args fs0.
Proof.
  intros Hcg _ pre ev post Htr Hnet.
  destruct (preceded_split is_applied is_network_op _ pre ev post
              (launch_apply_then_network w c args fs0 cg Hcg) Htr Hnet)
    as (ev' & Hin & Hap).
  destruct (launch_applied_is_child w c args fs0 ev') as
    (cg' & pid & cmd & -> & Hcg' & Hstart); [|done|].
  - rewrite Htr. apply elem_of_app. by left.
  - exists pid, cmd. split; [|done]. congruence.
Qed.

Lemma cgroups_before_network_witness :
  ∃ pid cmd,
    EvCgroupsApply (mkCgroup "demo") pid None
      ∈ take 9 (launch_trace all_ok demo ["sh"] ∅)
    ∧ EvStart cmd (Ok pid) ∈ launch_trace all_ok demo ["sh"] ∅.
Proof.
  apply (cgroups_before_network all_ok demo ["sh"] ∅ (mkCgroup "demo")
           (mkNetwork "docker0") eq_refl eq_refl
           (take 9 (launch_trace all_ok demo ["sh"] ∅))
           (EvCreateVethPair "docka1b2" "dockd4e5" None)
           (drop 10 (launch_trace all_ok demo ["sh"] ∅)));
    reflexivity.
Defined.

(** ** A failed resource-limit application *)

(** C5 (amended).  When the application of the resource limits reports an
    error, the launch ends with the kill of the child and then the call
    that removes the pid marker, and returns -1 with that error; the
    marker is gone when that removal is granted. *)
Theorem cgroups_failure_kills_and_removes w c args fs0 cg pid e :
  EvCgroupsApply cg pid (Some e) ∈ launch_trace w c args fs0 →
  launch_result w c args fs0 = (-1, Some e)
  ∧ ∃ pre r,
      launch_trace w c args fs0
      = pre ++ [EvCgroupsApply cg pid (Some e); EvKill pid;
                EvRemove ".nspid" r]
      ∧ (r = None → launch_fs w c args fs0 !! ".nspid" = None).
Proof.
  launch_cases; intros Hin; inv_elem Hin.
  all: split; [reflexivity|].
  all: match goal with
       | |- ∃ pre r, ?tr = _ ∧ _ =>
           exists (take (length tr - 3) tr); simpl take
       end.
  all: eexists; split; [reflexivity|].
  all: intros Hr; first [discriminate Hr | apply lookup_delete_eq].
Qed.

Lemma cgroups_failure_kills_and_removes_witness :
  launch_result cgroups_fail demo ["sh"] ∅ = (-1, Some EACCES)
  ∧ ∃ pre r,
      launch_trace cgroups_fail demo ["sh"] ∅
      = pre ++ [EvCgroupsApply (mkCgroup "demo") 4242 (Some EACCES);
                EvKill 4242; EvRemove ".nspid" r]
      ∧ (r = None → launch_fs cgroups_fail demo ["sh"] ∅ !! ".nspid" = None).
Proof.
  apply (cgroups_failure_kills_and_removes cgroups_fail demo ["sh"] ∅).
  vm_compute. elem_here.
Defined.

(** C5 as stated fails: when the unlink is refused too, the marker written
    for the child stays behind. *)
Lemma marker_left_after_refused_limits :
  ¬ limits_failure_leaves_no_marker limits_and_unlink_refused demo ["sh"] ∅.
Proof.
  intros H.
  specialize (H (mkCgroup "demo") 4242 EACCES).
  assert (Hfs : launch_fs limits_and_unlink_refused demo ["sh"] ∅ !! ".nspid"
                = Some (mkFile "4242" 429)) by (by vm_compute).
  rewrite Hfs in H. discriminate H.
  vm_compute. elem_here.
Qed.
(** ** The pid marker *)

(** *** The text of the marker *)

Lemma digit_of_pretty_N_char (d : N) :
  (d < 10)%N → digit_of (pretty_N_char d) = Some d.
Proof.
  intros Hd.
  assert (d = 0 ∨ d = 1 ∨ d = 2 ∨ d = 3 ∨ d = 4 ∨ d = 5 ∨ d = 6 ∨ d = 7
          ∨ d = 8 ∨ d = 9)%N as Hc by lia.
  repeat (destruct Hc as [-> | Hc]; [reflexivity|]). by subst.
Qed.

Lemma pretty_N_go_nonempty (x : N) (s : string) :
  s ≠ EmptyString → pretty_N_go x s ≠ EmptyString.
Proof.
  revert s. induction (N.lt_wf_0 x) as [x _ IH]; intros s Hs.
  destruct (decide (x = 0)%N) as [-> | Hx]; [by rewrite pretty_N_go_0|].
  rewrite pretty_N_go_step by lia. apply IH; [|done].
  apply N.div_lt; lia.
Qed.

(** Reading back what was printed in front of [s], digit by digit. *)
Lemma parse_digits_pretty_N_go (x : N) (s : string) :
  parse_digits 0 (pretty_N_go x s) = parse_digits x s.
Proof.
  revert s. induction (N.lt_wf_0 x) as [x _ IH]; intros s.
  destruct (decide (x = 0)%N) as [-> | Hx]; [by rewrite pretty_N_go_0|].
  rewrite pretty_N_go_step by lia.
  rewrite IH by (apply N.div_lt; lia). simpl.
  rewrite digit_of_pretty_N_char by (apply N.mod_lt; lia).
  f_equal. pose proof (N.div_mod x 10). lia.
Qed.

Lemma parse_N_pretty (x : N) : parse_N (pretty x) = Some x.
Proof.
  unfold pretty, pretty_N. destruct (decide (x = 0)%N) as [-> | Hx];
    [reflexivity|].
  pose proof (parse_digits_pretty_N_go x EmptyString) as Hp.
  assert (Hne : pretty_N_go x EmptyString ≠ EmptyString).
  { rewrite pretty_N_go_step by lia. by apply pretty_N_go_nonempty. }
  destruct (pretty_N_go x EmptyString) as [|ch rest]; [done|].
  exact Hp.
Qed.

(** The marker reads back as the pid: the text is its decimal notation. *)
Lemma fmt_Sprint_parse (n : Z) : parse_int (fmt_Sprint n) = Some n.
Proof.
  unfold fmt_Sprint. destruct n as [|p|p].
  - reflexivity.
  - change (pretty (Z.pos p)) with (pretty (N.pos p)).
    unfold parse_int. by rewrite parse_N_pretty.
  - change (pretty (Z.neg p)) with ("-" +:+ pretty (N.pos p)).
    change (parse_int ("-" +:+ pretty (N.pos p)))
      with (match parse_N (pretty (N.pos p)) with
            | Some n => Some (- Z.of_N n)
            | None => None
            end).
    by rewrite parse_N_pretty.
Qed.

Example parse_int_rejects : parse_int "" = None ∧ parse_int "12a" = None.
Proof. by vm_compute. Qed.

(** *** The marker in the launch *)

(** Two answers to one call are one answer. *)
Ltac merge_answers :=
  repeat match goal with
         | H1 : ?x = _, H2 : ?x = _ |- _ =>
             rewrite H1 in H2;
             first [discriminate H2 | injection H2 as <- | clear H2]
         end.

Lemma writePidFile_file w pid (fs0 : gmap string File) :
  ioutil_WriteFile w ".nspid" (fmt_Sprint pid) (octal 6 5 5) = WriteDone →
  fs (snd (writePidFile w pid (init_state fs0))) !! ".nspid"
  = Some (mkFile (fmt_Sprint pid)
            (match fs0 !! ".nspid" with
             | Some old => f_perm old
             | None => Z.ldiff (octal 6 5 5) (umask w)
             end)).
Proof.
  intros Hw. unfold writePidFile, WriteFile, call, emit, bind, ret, set_fs,
    get_fs, init_state. simpl. rewrite Hw. simpl. rewrite lookup_insert_eq.
  unfold file_mode. by destruct (fs0 !! ".nspid").
Qed.

Lemma launch_marker_trace w c args fs0 cmd pid :
  EvStart cmd (Ok pid) ∈ launch_trace w c args fs0 →
  ∃ pre post,
    launch_trace w c args fs0
    = pre ++ EvStart cmd (Ok pid)
          :: EvWriteFile ".nspid" (fmt_Sprint pid) (octal 6 5 5)
               (write_error
                  (ioutil_WriteFile w ".nspid" (fmt_Sprint pid) (octal 6 5 5)))
          :: post
    ∧ match ioutil_WriteFile w ".nspid" (fmt_Sprint pid) (octal 6 5 5) with
      | WriteDone =>
          ∃ rr, last (launch_trace w c args fs0) = Some (EvRemove ".nspid" rr)
            ∧ (rr = None → launch_fs w c args fs0 !! ".nspid" = None)
      | OpenRefused e | WriteBroken e _ =>
          last (launch_trace w c args fs0) = Some (EvKill pid)
          ∧ launch_result w c args fs0 = (-1, Some e)
      end.
Proof.
  launch_cases; intros Hin; inv_elem Hin; merge_answers;
    match goal with
    | |- ∃ pre post, ?tr = _ ∧ _ => exists (take 4 tr); simpl take
    end;
    eexists; (split; [reflexivity|]).
  all: first
    [ split; reflexivity
    | eexists; split; [reflexivity|];
      intros Hr; first [discriminate Hr | apply lookup_delete_eq] ].
Qed.

(** C7 (amended).  Once the child is started with process id [pid], the
    next call writes the file [.nspid] (a path relative to the working
    directory) with the decimal text of [pid], asking for mode 0655
    (decimal 429), which grants read and write to the owner and read to
    group and others.  When the write succeeds the file holds that text,
    with the mode an existing file had or else the requested mode less the
    umask, and every path of the launch from there ends with the call that
    removes [.nspid], the file being gone when that removal is granted;
    when the write fails the launch ends with the kill of the child and
    returns -1 with the write's error. *)
Theorem pid_marker w c args fs0 cmd pid :
  EvStart cmd (Ok pid) ∈ launch_trace w c args fs0 →
  ∃ pre data perm r post,
    launch_trace w c args fs0
    = pre ++ EvStart cmd (Ok pid)
          :: EvWriteFile ".nspid" data perm r :: post
    ∧ parse_int data = Some pid
    ∧ perm = 429
    ∧ Z.testbit perm 8 && Z.testbit perm 7 && Z.testbit perm 5
      && Z.testbit perm 2 = true
    ∧ (r = None →
         (∃ f, fs (snd (writePidFile w pid (init_state fs0))) !! ".nspid"
               = Some f
            ∧ f_data f = data
            ∧ f_perm f = match fs0 !! ".nspid" with
                         | Some old => f_perm old
                         | None => Z.ldiff perm (umask w)
                         end)
         ∧ ∃ rr,
             last (launch_trace w c args fs0) = Some (EvRemove ".nspid" rr)
             ∧ (rr = None → launch_fs w c args fs0 !! ".nspid" = None))
    ∧ (∀ e, r = Some e →
         last (launch_trace w c args fs0) = Some (EvKill pid)
         ∧ launch_result w c args fs0 = (-1, Some e)).
Proof.
  intros Hin.
  destruct (launch_marker_trace w c args fs0 cmd pid Hin)
    as (pre & post & Htr & Hr).
  exists pre, (fmt_Sprint pid), (octal 6 5 5),
    (write_error (ioutil_WriteFile w ".nspid" (fmt_Sprint pid) (octal 6 5 5))),
    post.
  split; [exact Htr|]. split; [apply fmt_Sprint_parse|].
  split; [reflexivity|]. split; [reflexivity|].
  pose proof (writePidFile_file w pid fs0) as Hfile.
  destruct (ioutil_WriteFile w ".nspid" (fmt_Sprint pid) (octal 6 5 5))
    as [|e|e n] eqn:Hw; simpl.
  - split; [|discriminate]. intros _. split; [|exact Hr].
    eexists. split; [by apply Hfile|]. by split.
  - split; [discriminate|]. by intros e' [= <-].
  - split; [discriminate|]. by intros e' [= <-].
Qed.

Lemma pid_marker_witness :
  ∃ pre data perm r post,
    launch_trace all_ok demo ["sh"] ∅
    = pre ++ EvStart (mkCmd "nsinit" ["-console"; "/dev/pts/4"; "init"; "sh"] 0)
               (Ok 4242)
          :: EvWriteFile ".nspid" data perm r :: post
    ∧ parse_int data = Some 4242
    ∧ perm = 429
    ∧ Z.testbit perm 8 && Z.testbit perm 7 && Z.testbit perm 5
      && Z.testbit perm 2 = true
    ∧ (r = None →
         (∃ f, fs (snd (writePidFile all_ok 4242 (init_state ∅))) !! ".nspid"
               = Some f
            ∧ f_data f = data
            ∧ f_perm f = match (∅ : gmap string File) !! ".nspid" with
                         | Some old => f_perm old
                         | None => Z.ldiff perm (umask all_ok)
                         end)
         ∧ ∃ rr,
             last (launch_trace all_ok demo ["sh"] ∅)
             = Some (EvRemove ".nspid" rr)
             ∧ (rr = None → launch_fs all_ok demo ["sh"] ∅ !! ".nspid" = None))
    ∧ (∀ e, r = Some e →
         last (launch_trace all_ok demo ["sh"] ∅) = Some (EvKill 4242)
         ∧ launch_result all_ok demo ["sh"] ∅ = (-1, Some e)).
Proof.
  apply (pid_marker all_ok demo ["sh"] ∅).
  rewrite all_ok_trace. elem_here.
Defined.

(** The marker of [all_ok], written out. *)
Example marker_all_ok :
  fs (snd (writePidFile all_ok 4242 (init_state ∅))) !! ".nspid"
  = Some (mkFile "4242" 429).
Proof. by vm_compute. Qed.

(** C7 as stated fails twice: a refused unlink leaves the marker behind,
    and under umask 077 the marker is created with mode 0600, which group
    and others cannot read. *)
Lemma marker_left_or_unreadable :
  ¬ marker_always_removed unlink_refused demo ["sh"] ∅
  ∧ ¬ marker_readable_by_all strict_umask 4242 ∅.
Proof.
  split; intros H.
  - specialize (H "4242" 429).
    assert (Hfs : launch_fs unlink_refused demo ["sh"] ∅ !! ".nspid"
                  = Some (mkFile "4242" 429)) by (by vm_compute).
    rewrite Hfs in H. discriminate H. vm_compute. elem_here.
  - assert (Hf : fs (snd (writePidFile strict_umask 4242 (init_state ∅)))
                   !! ".nspid" = Some (mkFile "4242" 384)) by (by vm_compute).
    specialize (H _ Hf). by vm_compute in H.
Qed.
(** ** A failure in the network package *)

(** C1 (what the code does).  When a call of the network package fails
    with [e], the launch returns -1 with [e], and although the child has
    been started no kill is ever issued: the branch of [execCommand] that
    tests the error of [initializeContainerVeth] returns at once, unlike
    the branches for the pid marker, the resource limits and the terminal. *)
Theorem network_failure_skips_kill w c args fs0 ev e :
  ev ∈ launch_trace w c args fs0 → failed_network_op ev = Some e →
  launch_result w c args fs0 = (-1, Some e)
  ∧ (∃ cmd pid, EvStart cmd (Ok pid) ∈ launch_trace w c args fs0)
  ∧ ∀ pid, EvKill pid ∉ launch_trace w c args fs0.
Proof.
  launch_cases; intros Hin Hf; inv_elem Hin; try discriminate Hf;
    injection Hf as <-.
  all: split; [reflexivity|].
  all: split; [eexists _, _; elem_here|].
  all: intros pid Hk; inv_elem Hk.
Qed.

Lemma network_failure_skips_kill_witness :
  launch_result master_fail demo ["sh"] ∅ = (-1, Some ENODEV)
  ∧ (∃ cmd pid, EvStart cmd (Ok pid) ∈ launch_trace master_fail demo ["sh"] ∅)
  ∧ ∀ pid, EvKill pid ∉ launch_trace master_fail demo ["sh"] ∅.
Proof.
  apply (network_failure_skips_kill master_fail demo ["sh"] ∅
           (EvSetInterfaceMaster "docka1b2" "docker0" (Some ENODEV)) ENODEV);
    [|reflexivity].
  vm_compute. elem_here.
Defined.

(** The sibling branches do kill: a failed terminal set-up, like a failed
    marker write or a failed resource-limit application, is followed by a
    kill of the child. *)
Lemma terminal_failure_kills w c args fs0 ev e :
  ev ∈ launch_trace w c args fs0 → terminal_error ev = Some e →
  launch_result w c args fs0 = (-1, Some e)
  ∧ ∃ pid, EvKill pid ∈ launch_trace w c args fs0.
Proof.
  launch_cases; intros Hin Hf; inv_elem Hin; try discriminate Hf;
    injection Hf as <-; (split; [reflexivity | eexists; elem_here]).
Qed.

(** ** The control channel *)








(** ** The dropped write error *)

Lemma launch_write_independent w f c args fs0 :
  launch_result (with_pipe_Write f w) c args fs0 = launch_result w c args fs0
  ∧ map mask_write (launch_trace (with_pipe_Write f w) c args fs0)
    = map mask_write (launch_trace w c args fs0)
  ∧ launch_fs (with_pipe_Write f w) c args fs0 = launch_fs w c args fs0.
Proof.
  destruct w. unfold_launch; unfold_world.
  repeat (split_answer; unfold_launch; unfold_world).
  all: repeat split; reflexivity.
Qed.

Lemma launch_write_followed w c args fs0 :
  followed is_write is_closed_ok (launch_trace w c args fs0) = true.
Proof. launch_cases; reflexivity. Qed.

(** C9.  The answer to the write of the interface name does not reach the
    caller: whatever that write answers, the launch returns the same code
    and error, makes the same calls and leaves the same files; and in
    every run the call that follows the write is the close of the
    channel. *)
Theorem write_error_discarded w c args fs0 :
  (∀ f,
     launch_result (with_pipe_Write f w) c args fs0 = launch_result w c args fs0
     ∧ map mask_write (launch_trace (with_pipe_Write f w) c args fs0)
       = map mask_write (launch_trace w c args fs0)
     ∧ launch_fs (with_pipe_Write f w) c args fs0 = launch_fs w c args fs0)
  ∧ ∀ pre d r post,
      launch_trace w c args fs0 = pre ++ EvPipeWrite d r :: post →
      ∃ post', post = EvPipeClose None :: post'.
Proof.
  split; [intros f; apply launch_write_independent|].
  intros pre d r post Htr.
  destruct (followed_split is_write is_closed_ok _ pre _ post
              (launch_write_followed w c args fs0) Htr eq_refl)
    as (ev' & post' & -> & Hc).
  exists post'. by destruct ev' as [| | | | | | | | | | | | | | |[?|] | | | | | |].
Qed.

Lemma write_error_discarded_witness :
  ∃ post',
    drop 14 (launch_trace pipe_fail demo ["sh"] ∅)
    = EvPipeClose None :: post'.
Proof.
  destruct (write_error_discarded pipe_fail demo ["sh"] ∅) as [_ H].
  apply (H (take 13 (launch_trace pipe_fail demo ["sh"] ∅))
           "dockd4e5" (Some EPIPE)).
  by vm_compute.
Defined.

(** The launch of [pipe_fail] ends like that of [all_ok]. *)
Example pipe_fail_result :
  launch_result pipe_fail demo ["sh"] ∅ = (17, None)
  ∧ EvPipeWrite "dockd4e5" (Some EPIPE)
      ∈ launch_trace pipe_fail demo ["sh"] ∅.
Proof. split; [by vm_compute|]. vm_compute. elem_here. Qed.

(** ** The network bootstrap *)

(** C8 (amended).  With a network configured, a launch that has written
    the marker, whose resource limits were not refused and whose names
    were generated does run the bootstrap, and the steps it logs are, in
    this order: creation of the pair, the first interface attached to the
    configured bridge, the first interface brought up, the second
    interface moved to the namespace of the child's pid, the second name
    written on the channel.  A failure of one of the first four ends the
    sequence there: the launch returns -1 with that error, and neither
    writes on the channel nor closes it.  The write is the last step, and
    whatever it answers the launch goes on: it closes the channel and
    starts the relay. *)
Theorem network_bootstrap_order w c args fs0 net data perm :
  ContainerNetwork c = Some net →
  EvWriteFile ".nspid" data perm None ∈ launch_trace w c args fs0 →
  count_calls is_refused_apply (launch_trace w c args fs0) = 0%nat →
  count_calls is_failed_generate (launch_trace w c args fs0) = 0%nat →
  ∃ cmd pid abort,
    EvStart cmd (Ok pid) ∈ launch_trace w c args fs0
    ∧ bootstrap_run (Bridge net) pid
        (List.filter is_bootstrap_step (launch_trace w c args fs0)) abort
    ∧ (∀ e, abort = Some e →
         launch_result w c args fs0 = (-1, Some e)
         ∧ count_calls on_pipe (launch_trace w c args fs0) = 0%nat)
    ∧ (abort = None →
         ∃ pre name wr post,
           launch_trace w c args fs0
           = pre ++ EvPipeWrite name wr :: EvPipeClose None :: post
           ∧ count_calls is_copy post = 2%nat).
Proof.
  launch_cases; intros Hnet Hw Ha Hg; inv_elem Hw; simplify_eq.
  all: eexists _, _, _; split; [elem_here|].
  all: split; [simpl; econstructor|].
  all: split; [intros e' He; first [discriminate He | by injection He as <-]|].
  all: intros Hab; try discriminate Hab.
  all: match goal with
       | |- ∃ pre name wr post, ?tr = _ ∧ _ =>
           let r := eval cbv beta iota delta [split_first is_write]
                    in (split_first is_write tr) in
           match r with Some (?pre, _, _) => exists pre end
       end.
  all: eexists _, _, _; split; reflexivity.
Qed.

(** The refused write of [pipe_fail] is the fifth step of a full run. *)
Lemma network_bootstrap_order_witness :
  ∃ cmd pid abort,
    EvStart cmd (Ok pid) ∈ launch_trace pipe_fail demo ["sh"] ∅
    ∧ bootstrap_run "docker0" pid
        [EvCreateVethPair "docka1b2" "dockd4e5" None;
         EvSetInterfaceMaster "docka1b2" "docker0" None;
         EvInterfaceUp "docka1b2" None;
         EvSetInterfaceInNamespacePid "dockd4e5" 4242 None;
         EvPipeWrite "dockd4e5" (Some EPIPE)] abort
    ∧ (∀ e, abort = Some e →
         launch_result pipe_fail demo ["sh"] ∅ = (-1, Some e)
         ∧ count_calls on_pipe (launch_trace pipe_fail demo ["sh"] ∅) = 0%nat)
    ∧ (abort = None →
         ∃ pre name wr post,
           launch_trace pipe_fail demo ["sh"] ∅
           = pre ++ EvPipeWrite name wr :: EvPipeClose None :: post
           ∧ count_calls is_copy post = 2%nat).
Proof.
  assert (Hs : List.filter is_bootstrap_step
                 (launch_trace pipe_fail demo ["sh"] ∅)
               = [EvCreateVethPair "docka1b2" "dockd4e5" None;
                  EvSetInterfaceMaster "docka1b2" "docker0" None;
                  EvInterfaceUp "docka1b2" None;
                  EvSetInterfaceInNamespacePid "dockd4e5" 4242 None;
                  EvPipeWrite "dockd4e5" (Some EPIPE)]) by (by vm_compute).
  rewrite <- Hs.
  apply (network_bootstrap_order pipe_fail demo ["sh"] ∅
           (mkNetwork "docker0") "4242" 429); [reflexivity | | by vm_compute..].
  vm_compute. elem_here.
Defined.

(** C8 as stated fails: the write of the name is a step whose failure does
    not stop the launch. *)
Lemma write_failure_does_not_abort :
  ¬ any_step_failure_aborts pipe_fail demo ["sh"] ∅.
Proof.
  intros H.
  specialize (H (EvPipeWrite "dockd4e5" (Some EPIPE)) EPIPE).
  assert (Hr : launch_result pipe_fail demo ["sh"] ∅ = (17, None))
    by (by vm_compute).
  rewrite Hr in H. discriminate H; [|reflexivity].
  vm_compute. elem_here.
Qed.
(** ** Names of the veth pair *)

(** C6 (amended).  [createVethPair] draws each name once and asks for the
    pair once; when that creation is refused, for an existing name or for
    any other reason, nothing is drawn again and the launch returns -1
    with the error of the refusal. *)
Theorem collision_not_retried w c args fs0 n1 n2 e :
  EvCreateVethPair n1 n2 (Some e) ∈ launch_trace w c args fs0 →
  launch_result w c args fs0 = (-1, Some e)
  ∧ count_calls is_generate (launch_trace w c args fs0) = 2%nat
  ∧ count_calls is_create (launch_trace w c args fs0) = 1%nat.
Proof.
  launch_cases; intros Hin; inv_elem Hin.
  all: repeat split; reflexivity.
Qed.

Lemma collision_not_retried_witness :
  launch_result name_taken demo ["sh"] ∅ = (-1, Some EEXIST)
  ∧ count_calls is_generate (launch_trace name_taken demo ["sh"] ∅) = 2%nat
  ∧ count_calls is_create (launch_trace name_taken demo ["sh"] ∅) = 1%nat.
Proof.
  apply (collision_not_retried name_taken demo ["sh"] ∅
           "docka1b2" "dockd4e5" EEXIST).
  vm_compute. elem_here.
Defined.

(** C6 as stated fails: the refusal is what the launch returns. *)
Lemma collision_is_fatal : ¬ collision_retried name_taken demo ["sh"] ∅.
Proof.
  intros H. destruct (H "docka1b2" "dockd4e5") as [_ Hne].
  - vm_compute. elem_here.
  - apply Hne. by vm_compute.
Qed.

Lemma createVethPair_same_draw w s r :
  rand_Read w (draws s) = Ok r → rand_Read w (S (draws s)) = Ok r →
  let n := "dock" +:+ String.substring 0 4 r in
  fst (createVethPair w s) = (n, n, network_CreateVethPair w n n)
  ∧ trace (snd (createVethPair w s))
    = trace s ++ [EvGenerateRandomName "dock" 4 (Ok n);
                  EvGenerateRandomName "dock" 4 (Ok n);
                  EvCreateVethPair n n (network_CreateVethPair w n n)].
Proof.
  intros H1 H2 n. subst n.
  unfold createVethPair, GenerateRandomName, call, emit, bind, ret, next_draw.
  simpl. rewrite H1. simpl. rewrite H2. simpl. rewrite <- !app_assoc. simpl.
  by destruct (network_CreateVethPair w _ _).
Qed.

(** C10.  Both names of a pair come from a draw of their own under the
    scheme "dock" followed by four random characters, and nothing compares
    them: whenever the two draws give the same characters, the host side
    and the container side get the same name and the pair is requested
    with it twice; and there is a random source for which this happens in
    a launch. *)
Theorem veth_names_may_coincide :
  (∀ w s r,
     rand_Read w (draws s) = Ok r → rand_Read w (S (draws s)) = Ok r →
     let n := "dock" +:+ String.substring 0 4 r in
     fst (createVethPair w s) = (n, n, network_CreateVethPair w n n)
     ∧ trace (snd (createVethPair w s))
       = trace s ++ [EvGenerateRandomName "dock" 4 (Ok n);
                     EvGenerateRandomName "dock" 4 (Ok n);
                     EvCreateVethPair n n (network_CreateVethPair w n n)])
  ∧ ∃ w suffix,
      String.length suffix = 4%nat
      ∧ fst (createVethPair w (init_state ∅))
        = ("dock" +:+ suffix, "dock" +:+ suffix, None)
      ∧ EvCreateVethPair ("dock" +:+ suffix) ("dock" +:+ suffix) None
          ∈ launch_trace w demo ["sh"] ∅.
Proof.
  split; [apply createVethPair_same_draw|].
  exists same_draws, "a1b2". split; [reflexivity|]. split; [reflexivity|].
  vm_compute. elem_here.
Qed.

Lemma veth_names_may_coincide_witness :
  fst (createVethPair same_draws (init_state ∅))
  = ("docka1b2", "docka1b2", None).
Proof.
  destruct veth_names_may_coincide as [H _].
  apply (H same_draws (init_state ∅) "a1b2c3"); reflexivity.
Defined.


(** * Further properties of the launch *)

(** ** Splitting a trace at a call that occurs once *)

Lemma count_calls_cons P x tr :
  count_calls P (x :: tr)
  = ((if P x then 1 else 0) + count_calls P tr)%nat.
Proof. unfold count_calls. simpl. by destruct (P x). Qed.

Lemma count_calls_split P pre ev post :
  P ev = true → (1 ≤ count_calls P (pre ++ ev :: post))%nat.
Proof.
  intros Hev. induction pre as [|x pre IH]; simpl; rewrite count_calls_cons.
  - rewrite Hev. lia.
  - lia.
Qed.

Lemma split_first_unique P tr pre ev post :
  (count_calls P tr ≤ 1)%nat → tr = pre ++ ev :: post → P ev = true →
  split_first P tr = Some (pre, ev, post).
Proof.
  revert tr. induction pre as [|x pre IH]; intros tr Hc -> Hev; simpl.
  - by rewrite Hev.
  - simpl in Hc. rewrite count_calls_cons in Hc.
    pose proof (count_calls_split P pre ev post Hev) as Hge.
    destruct (P x); [lia|].
    rewrite (IH (pre ++ ev :: post)); [done | lia | done | done].
Qed.

(** Split a trace that is written out at its only [P] call. *)
Ltac split_at P H :=
  apply (split_first_unique P) in H;
  [ cbv beta iota delta [split_first P] in H;
    first [discriminate H | injection H as <- <- <-]
  | unfold count_calls; simpl; lia
  | reflexivity ].

Lemma ExitStatus_bounds ws : -1 ≤ ExitStatus ws ≤ 255.
Proof.
  unfold ExitStatus. destruct (Exited ws) eqn:Hex; [|lia].
  pose proof (ExitStatus_range ws Hex) as H. unfold ExitStatus in H.
  rewrite Hex in H. lia.
Qed.

(** ** Failures before there is a child *)



(** ** The command of the child *)

(** X2.  The child is started at most once, and the command started is
    [nsinit -console <console> init <args...>]: the console is the slave
    name that Ptsname gave for the opened master, the caller's arguments
    follow unchanged and in order, and the clone flags are those of the
    container's namespaces converted to an unsigned 64-bit word, so that a
    negative flag value wraps around. *)
Theorem child_command w c args fs0 cmd r :
  EvStart cmd r ∈ launch_trace w c args fs0 →
  ∃ master console fl pm,
    EvOpenFile "/dev/ptmx" fl pm (Ok master) ∈ launch_trace w c args fs0
    ∧ EvPtsname master (Ok console) ∈ launch_trace w c args fs0
    ∧ Path cmd = "nsinit"
    ∧ Args cmd = ["-console"; console; "init"] ++ args
    ∧ Cloneflags cmd = getNamespaceFlags w (Namespaces c) mod 2 ^ 64
    ∧ 0 ≤ Cloneflags cmd < 2 ^ 64
    ∧ count_calls is_start (launch_trace w c args fs0) = 1%nat.
Proof.
  launch_cases; intros Hin; inv_elem Hin.
  all: eexists _, _, _, _; split; [elem_here|]; split; [elem_here|].
  all: split; [reflexivity|]; split; [reflexivity|]; split; [reflexivity|].
  all: split; [|reflexivity].
  all: apply Z.mod_pos_bound; lia.
Qed.

(** A flag value of -1 is started as 2^64 - 1. *)
Lemma child_command_witness :
  ∃ master console fl pm,
    EvOpenFile "/dev/ptmx" fl pm (Ok master)
      ∈ launch_trace negative_flags demo [] ∅
    ∧ EvPtsname master (Ok console) ∈ launch_trace negative_flags demo [] ∅
    ∧ Path (mkCmd "nsinit" ["-console"; "/dev/pts/4"; "init"]
              18446744073709551615) = "nsinit"
    ∧ Args (mkCmd "nsinit" ["-console"; "/dev/pts/4"; "init"]
              18446744073709551615)
      = ["-console"; console; "init"] ++ []
    ∧ Cloneflags (mkCmd "nsinit" ["-console"; "/dev/pts/4"; "init"]
                    18446744073709551615)
      = getNamespaceFlags negative_flags (Namespaces demo) mod 2 ^ 64
    ∧ 0 ≤ Cloneflags (mkCmd "nsinit" ["-console"; "/dev/pts/4"; "init"]
                        18446744073709551615) < 2 ^ 64
    ∧ count_calls is_start (launch_trace negative_flags demo [] ∅) = 1%nat.
Proof.
  apply (child_command negative_flags demo [] ∅ _ (Ok 4242)).
  vm_compute. elem_here.
Defined.
(** ** The terminal *)

(** X3.  The window size set on the pty is the one read from the host's
    terminal, and it is set on the master that was opened for this launch;
    raw mode is asked for only once that size has been set. *)
Theorem window_size_propagated w c args fs0 :
  (∀ fd ws r, EvSetWinsize fd ws r ∈ launch_trace w c args fs0 →
     EvGetWinsize (Ok ws) ∈ launch_trace w c args fs0
     ∧ ∃ fl pm, EvOpenFile "/dev/ptmx" fl pm (Ok fd)
                  ∈ launch_trace w c args fs0)
  ∧ (∀ r, EvSetRawTerminal r ∈ launch_trace w c args fs0 →
       ∃ fd ws, EvSetWinsize fd ws None ∈ launch_trace w c args fs0).
Proof.
  split.
  - intros fd ws r. launch_cases; intros Hin; inv_elem Hin.
    all: split; [elem_here | eexists _, _; elem_here].
  - intros r. launch_cases; intros Hin; inv_elem Hin.
    all: eexists _, _; elem_here.
Qed.

Lemma window_size_propagated_witness :
  EvGetWinsize (Ok (24, 80)) ∈ launch_trace all_ok demo ["sh"] ∅
  ∧ ∃ fl pm, EvOpenFile "/dev/ptmx" fl pm (Ok 3)
               ∈ launch_trace all_ok demo ["sh"] ∅.
Proof.
  destruct (window_size_propagated all_ok demo ["sh"] ∅) as [H _].
  apply (H 3 (24, 80) None). vm_compute. elem_here.
Defined.

(** X4.  Once stdin is in raw mode the launch waits for the child and then
    ends with exactly these calls: the wait, the restoring of the saved
    terminal state, the removal of the pid marker, whatever the wait and
    the removal answer.  The terminal is restored once, with the state
    that SetRawTerminal returned; and a restore never happens without that
    state having been saved. *)
Theorem terminal_restored w c args fs0 :
  (∀ st, EvSetRawTerminal (Ok st) ∈ launch_trace w c args fs0 →
     ∃ pre r rr,
       launch_trace w c args fs0
       = pre ++ [EvSetRawTerminal (Ok st); EvWait r; EvRestoreTerminal st;
                 EvRemove ".nspid" rr]
       ∧ count_calls is_restore (launch_trace w c args fs0) = 1%nat)
  ∧ (∀ st, EvRestoreTerminal st ∈ launch_trace w c args fs0 →
       EvSetRawTerminal (Ok st) ∈ launch_trace w c args fs0).
Proof.
  split; intros st.
  - launch_cases; intros Hin; inv_elem Hin.
    all: match goal with
         | |- ∃ pre r rr, ?tr = _ ∧ _ =>
             exists (take (length tr - 4) tr); simpl take
         end.
    all: eexists _, _; split; reflexivity.
  - launch_cases; intros Hin; inv_elem Hin; elem_here.
Qed.

(** The wait fails and the unlink is refused: the tail is the same. *)
Lemma terminal_restored_witness :
  ∃ pre r rr,
    launch_trace (with_Remove (λ _, Some EROFS) wait_fail) demo ["sh"] ∅
    = pre ++ [EvSetRawTerminal (Ok 7); EvWait r; EvRestoreTerminal 7;
              EvRemove ".nspid" rr]
    ∧ count_calls is_restore
        (launch_trace (with_Remove (λ _, Some EROFS) wait_fail) demo ["sh"] ∅)
      = 1%nat.
Proof.
  destruct (terminal_restored (with_Remove (λ _, Some EROFS) wait_fail)
              demo ["sh"] ∅) as [H _].
  apply (H 7). vm_compute. elem_here.
Defined.
(** ** The relay *)

(** X5.  The launch starts two copies for each close of the channel and
    none otherwise, and touches the terminal only after the close.  The
    two copies come right after the close, first pty master to stdout,
    then stdin to pty master, both on the master opened for this launch;
    before the close no copy is started and no terminal call is made, and
    after the two no further copy is started. *)
Theorem relay_started_after_close w c args fs0 :
  count_calls is_copy (launch_trace w c args fs0)
  = (2 * count_calls is_close (launch_trace w c args fs0))%nat
  ∧ (count_calls is_close (launch_trace w c args fs0) = 0%nat →
       count_calls is_terminal (launch_trace w c args fs0) = 0%nat)
  ∧ ∀ pre r post,
      launch_trace w c args fs0 = pre ++ EvPipeClose r :: post →
      ∃ m fl pm post',
        EvOpenFile "/dev/ptmx" fl pm (Ok m) ∈ pre
        ∧ post = EvGoCopy Stdout (Master m) :: EvGoCopy (Master m) Stdin
                   :: post'
        ∧ count_calls is_copy pre = 0%nat
        ∧ count_calls is_terminal pre = 0%nat
        ∧ count_calls is_copy post' = 0%nat.
Proof.
  split; [launch_cases; reflexivity|].
  split; [launch_cases; intros Hc; first [reflexivity | discriminate Hc]|].
  intros pre r post. launch_cases; intros Htr; split_at is_close Htr.
  all: eexists _, _, _, _; split; [elem_here|]; by repeat split.
Qed.

Lemma relay_started_after_close_witness :
  ∃ m fl pm post',
    EvOpenFile "/dev/ptmx" fl pm (Ok m)
      ∈ take 14 (launch_trace no_tty demo ["sh"] ∅)
    ∧ drop 15 (launch_trace no_tty demo ["sh"] ∅)
      = EvGoCopy Stdout (Master m) :: EvGoCopy (Master m) Stdin :: post'
    ∧ count_calls is_copy (take 14 (launch_trace no_tty demo ["sh"] ∅)) = 0%nat
    ∧ count_calls is_terminal (take 14 (launch_trace no_tty demo ["sh"] ∅))
      = 0%nat
    ∧ count_calls is_copy post' = 0%nat.
Proof.
  destruct (relay_started_after_close no_tty demo ["sh"] ∅) as (_ & _ & H).
  apply (H _ None). by vm_compute.
Defined.
(** ** Optional parts of the configuration *)

(** X6.  Without a network in the configuration the launch draws no name,
    calls nothing of the network package and writes nothing on the
    channel: when the channel is closed it is empty. *)
Theorem no_network_no_bootstrap w c args fs0 :
  ContainerNetwork c = None →
  count_calls is_generate (launch_trace w c args fs0) = 0%nat
  ∧ count_calls is_bootstrap_step (launch_trace w c args fs0) = 0%nat
  ∧ ∀ p, launch_pipe w c args fs0 = Some p → pipe_data p = "".
Proof.
  launch_cases; intros Hnet; try discriminate Hnet.
  all: split; [reflexivity|]; split; [reflexivity|].
  all: intros p Hp; first [discriminate Hp | by injection Hp as <-].
Qed.

Lemma no_network_no_bootstrap_witness :
  count_calls is_generate (launch_trace all_ok bare ["sh"] ∅) = 0%nat
  ∧ count_calls is_bootstrap_step (launch_trace all_ok bare ["sh"] ∅) = 0%nat
  ∧ ∀ p, launch_pipe all_ok bare ["sh"] ∅ = Some p → pipe_data p = "".
Proof.
  apply (no_network_no_bootstrap all_ok bare ["sh"] ∅). reflexivity.
Defined.

(** X7.  The resource limits are applied only when the configuration has
    them, with the configured cgroup and on the pid of the started child,
    and once: a refused application is not tried again. *)
Theorem apply_only_configured w c args fs0 :
  (Cgroups c = None → count_calls is_apply (launch_trace w c args fs0) = 0%nat)
  ∧ ∀ cg pid r,
      EvCgroupsApply cg pid r ∈ launch_trace w c args fs0 →
      Cgroups c = Some cg
      ∧ (∃ cmd, EvStart cmd (Ok pid) ∈ launch_trace w c args fs0)
      ∧ count_calls is_apply (launch_trace w c args fs0) = 1%nat.
Proof.
  split.
  - launch_cases; intros Hcg; first [discriminate Hcg | reflexivity].
  - intros cg pid r. launch_cases; intros Hin; inv_elem Hin.
    all: split; [reflexivity|]; split; [eexists; elem_here | reflexivity].
Qed.

Lemma apply_only_configured_witness :
  count_calls is_apply (launch_trace all_ok bare ["sh"] ∅) = 0%nat.
Proof.
  destruct (apply_only_configured all_ok bare ["sh"] ∅) as [H _].
  apply H. reflexivity.
Defined.

(** ** The kill *)

(** X8.  A kill is only ever sent to the child this launch started, at
    most once, and only on a path that returns -1 with an error: a launch
    that gets to wait for its child has not killed it. *)
Theorem kill_only_on_failure w c args fs0 pid :
  EvKill pid ∈ launch_trace w c args fs0 →
  (∃ cmd, EvStart cmd (Ok pid) ∈ launch_trace w c args fs0)
  ∧ (∃ e, launch_result w c args fs0 = (-1, Some e))
  ∧ count_calls is_kill (launch_trace w c args fs0) = 1%nat
  ∧ count_calls is_wait (launch_trace w c args fs0) = 0%nat.
Proof.
  launch_cases; intros Hin; inv_elem Hin.
  all: split; [eexists; elem_here|]; split; [by eexists|]; by split.
Qed.

Lemma kill_only_on_failure_witness :
  (∃ cmd, EvStart cmd (Ok 4242) ∈ launch_trace no_tty demo ["sh"] ∅)
  ∧ (∃ e, launch_result no_tty demo ["sh"] ∅ = (-1, Some e))
  ∧ count_calls is_kill (launch_trace no_tty demo ["sh"] ∅) = 1%nat
  ∧ count_calls is_wait (launch_trace no_tty demo ["sh"] ∅) = 0%nat.
Proof.
  apply (kill_only_on_failure no_tty demo ["sh"] ∅ 4242).
  vm_compute. elem_here.
Defined.

(** ** What the launch returns *)

(** X9.  The code returned lies between -1 and 255; a launch that returns
    an error returns -1 with it; and a launch that returns no error has
    waited for the child and returns the exit status of the wait status it
    reaped. *)
Theorem result_shape w c args fs0 :
  -1 ≤ fst (launch_result w c args fs0) ≤ 255
  ∧ (∀ e, snd (launch_result w c args fs0) = Some e →
       fst (launch_result w c args fs0) = -1)
  ∧ (snd (launch_result w c args fs0) = None →
       ∃ ws, EvWait (WaitReaped ws) ∈ launch_trace w c args fs0
         ∧ fst (launch_result w c args fs0) = ExitStatus ws).
Proof.
  launch_cases.
  all: split; [first [lia | apply ExitStatus_bounds]|].
  all: split; [intros e' He; first [reflexivity | discriminate He]|].
  all: intros Hn; first [discriminate Hn | eexists; split; [elem_here | reflexivity]].
Qed.

Lemma result_shape_witness :
  ∃ ws, EvWait (WaitReaped ws) ∈ launch_trace signalled demo ["sh"] ∅
    ∧ fst (launch_result signalled demo ["sh"] ∅) = ExitStatus ws.
Proof.
  destruct (result_shape signalled demo ["sh"] ∅) as (_ & _ & H).
  apply H. reflexivity.
Defined.

(** X10.  A child that is reaped without having exited, one ended by a
    signal, makes the launch return -1 and no error. *)
Theorem signalled_child w c args fs0 ws :
  EvWait (WaitReaped ws) ∈ launch_trace w c args fs0 →
  Exited ws = false →
  launch_result w c args fs0 = (-1, None).
Proof.
  launch_cases; intros Hin Hex; inv_elem Hin.
  all: unfold ExitStatus; by rewrite Hex.
Qed.

Lemma signalled_child_witness :
  launch_result signalled demo ["sh"] ∅ = (-1, None).
Proof.
  apply (signalled_child signalled demo ["sh"] ∅ 9); [|reflexivity].
  vm_compute. elem_here.
Defined.


(** ** The file system *)

(** X13.  The marker is removed once, by the last call of the launch, and
    only after a write of it that went through; nothing else is ever
    removed. *)
Theorem marker_removed_once w c args fs0 path r :
  EvRemove path r ∈ launch_trace w c args fs0 →
  path = ".nspid"
  ∧ last (launch_trace w c args fs0) = Some (EvRemove path r)
  ∧ count_calls is_remove (launch_trace w c args fs0) = 1%nat
  ∧ ∃ data perm, EvWriteFile ".nspid" data perm None
                   ∈ launch_trace w c args fs0.
Proof.
  launch_cases; intros Hin; inv_elem Hin.
  all: split; [reflexivity|]; split; [reflexivity|]; split; [reflexivity|].
  all: eexists _, _; elem_here.
Qed.

Lemma marker_removed_once_witness :
  ".nspid" = ".nspid"
  ∧ last (launch_trace master_fail demo ["sh"] ∅)
    = Some (EvRemove ".nspid" None)
  ∧ count_calls is_remove (launch_trace master_fail demo ["sh"] ∅) = 1%nat
  ∧ ∃ data perm, EvWriteFile ".nspid" data perm None
                   ∈ launch_trace master_fail demo ["sh"] ∅.
Proof.
  apply (marker_removed_once master_fail demo ["sh"] ∅ ".nspid" None).
  vm_compute. elem_here.
Defined.

(** ** Order of the launch *)

(** X14.  The launch waits for the child only after it has written the
    marker, closed the channel (so that the child is released) and put
    stdin in raw mode; and it waits once. *)
Theorem wait_after_release w c args fs0 pre r post :
  launch_trace w c args fs0 = pre ++ EvWait r :: post →
  (∃ data perm, EvWriteFile ".nspid" data perm None ∈ pre)
  ∧ EvPipeClose None ∈ pre
  ∧ (∃ st, EvSetRawTerminal (Ok st) ∈ pre)
  ∧ count_calls is_wait (launch_trace w c args fs0) = 1%nat.
Proof.
  launch_cases; intros Htr; split_at is_wait Htr.
  all: split; [eexists _, _; elem_here|]; split; [elem_here|].
  all: split; [eexists; elem_here | reflexivity].
Qed.

Lemma wait_after_release_witness :
  (∃ data perm, EvWriteFile ".nspid" data perm None
                  ∈ take 20 (launch_trace all_ok demo ["sh"] ∅))
  ∧ EvPipeClose None ∈ take 20 (launch_trace all_ok demo ["sh"] ∅)
  ∧ (∃ st, EvSetRawTerminal (Ok st)
             ∈ take 20 (launch_trace all_ok demo ["sh"] ∅))
  ∧ count_calls is_wait (launch_trace all_ok demo ["sh"] ∅) = 1%nat.
Proof.
  apply (wait_after_release all_ok demo ["sh"] ∅ _ (WaitReaped 4352)
           (drop 21 (launch_trace all_ok demo ["sh"] ∅))).
  by vm_compute.
Defined.

(** ** Failures after the start *)

(** X15.  When a name for the veth pair cannot be generated, the launch
    returns -1 with that error without having called the network package
    at all; the child, already started, is not killed, and the launch
    ends with the call that removes the marker. *)
Theorem name_failure_aborts w c args fs0 prefix size e :
  EvGenerateRandomName prefix size (Err e) ∈ launch_trace w c args fs0 →
  launch_result w c args fs0 = (-1, Some e)
  ∧ count_calls is_network_op (launch_trace w c args fs0) = 0%nat
  ∧ count_calls is_kill (launch_trace w c args fs0) = 0%nat
  ∧ count_calls is_start_ok (launch_trace w c args fs0) = 1%nat
  ∧ ∃ rr, last (launch_trace w c args fs0) = Some (EvRemove ".nspid" rr).
Proof.
  launch_cases; intros Hin; inv_elem Hin.
  all: repeat (split; [reflexivity|]). all: by eexists.
Qed.

Lemma name_failure_aborts_witness :
  launch_result no_entropy demo ["sh"] ∅ = (-1, Some EIO)
  ∧ count_calls is_network_op (launch_trace no_entropy demo ["sh"] ∅) = 0%nat
  ∧ count_calls is_kill (launch_trace no_entropy demo ["sh"] ∅) = 0%nat
  ∧ count_calls is_start_ok (launch_trace no_entropy demo ["sh"] ∅) = 1%nat
  ∧ ∃ rr, last (launch_trace no_entropy demo ["sh"] ∅)
          = Some (EvRemove ".nspid" rr).
Proof.
  apply (name_failure_aborts no_entropy demo ["sh"] ∅ "dock" 4 EIO).
  vm_compute. elem_here.
Defined.

Lemma launch_quiet_after_failure w c args fs0 :
  quiet_after is_setup_failure is_not_cleanup false
    (launch_trace w c args fs0) = true.
Proof. launch_cases; reflexivity. Qed.

(** X16.  After a setup call has failed the launch makes no further call
    but the kill of the child and the removal of the marker: no later
    step of the setup runs, the channel is not closed, no relay is
    started, the child is not waited for. *)
Theorem fail_fast w c args fs0 pre ev post e :
  launch_trace w c args fs0 = pre ++ ev :: post →
  setup_error ev = Some e →
  ∀ x, x ∈ post → is_kill x = true ∨ is_remove x = true.
Proof.
  intros Htr He x Hin.
  assert (Hq : is_not_cleanup x = false).
  { apply (quiet_after_split is_setup_failure is_not_cleanup _ pre ev post x
             (launch_quiet_after_failure w c args fs0) Htr); [|done].
    unfold is_setup_failure. by rewrite He. }
  unfold is_not_cleanup in Hq. apply negb_false_iff, orb_true_iff in Hq.
  exact Hq.
Qed.

Lemma fail_fast_witness :
  is_kill (EvKill 4242) = true ∨ is_remove (EvKill 4242) = true.
Proof.
  apply (fail_fast cgroups_fail demo ["sh"] ∅
           (take 6 (launch_trace cgroups_fail demo ["sh"] ∅))
           (EvCgroupsApply (mkCgroup "demo") 4242 (Some EACCES))
           (drop 7 (launch_trace cgroups_fail demo ["sh"] ∅)) EACCES);
    [by vm_compute | reflexivity |].
  vm_compute. elem_here.
Defined.
